(** * File integrity monitor ([file_checker.py]): model and verification

    The development embeds the monitor of [src/file_checker.py]:

    - Python strings are sequences of Unicode code points ([pystr]);
    - [hashlib.sha256], [json.dump]/[json.load] and [os.path.join] are
      modelled as executable functions (POSIX path conventions);
    - the file system, the SMTP server and the faults of the operating
      system form an explicit environment; the two state files form the
      persisted store;
    - the functions of the module are written in a small state and
      exception monad that also records the log, console and I/O events. *)

From Stdlib Require Import ZArith NArith List Lia Bool String Ascii.
From Stdlib.Strings Require Import Byte.
From stdpp Require Import base option list gmap sets.

Set Warnings "-register-all,-clear-no-such-hyp".
Local Open Scope N_scope.

(* ===================================================================== *)
(** ** Python strings *)
(* ===================================================================== *)

(** A Python [str] is a sequence of code points. *)
Abbreviation pystr := (list N).

(** A literal of the source, as a Python string. *)
Definition str (s : string) : pystr :=
  List.map N_of_ascii (list_ascii_of_string s).

(** [s.startswith(p)] *)
Fixpoint startswith (p s : pystr) : bool :=
  match p, s with
  | [], _ => true
  | _ :: _, [] => false
  | a :: p', b :: s' => (a =? b) && startswith p' s'
  end.

(** [p in s] on strings: [p] occurs in [s] as a substring. *)
Fixpoint contains (p s : pystr) : bool :=
  startswith p s ||
  match s with
  | [] => false
  | _ :: s' => contains p s'
  end.

(** [s.endswith(suffix)] *)
Definition endswith (s suffix : pystr) : bool :=
  startswith (rev suffix) (rev s).

(** The path separator, [/]. *)
Definition sep : N := 47.

(** [os.path.join(a, b)] of [posixpath]. *)
Definition path_join (a b : pystr) : pystr :=
  if startswith [sep] b then b
  else if bool_decide (a = []) || endswith a [sep] then a ++ b
  else a ++ sep :: b.

(** The segments of a path: the maximal runs between separators. *)
Fixpoint segments (s : pystr) : list pystr :=
  match s with
  | [] => [[]]
  | c :: s' =>
    if c =? sep then [] :: segments s'
    else match segments s' with
         | [] => [[c]]
         | seg :: segs => (c :: seg) :: segs
         end
  end.

(** ** Hexadecimal digits *)

Definition hexchar (d : N) : N := if d <? 10 then 48 + d else 87 + d.

(** [k] lower-case hexadecimal digits of [n], most significant first. *)
Fixpoint hex_digits (k : nat) (n : N) : pystr :=
  match k with
  | O => []
  | S k' => hex_digits k' (n / 16) ++ [hexchar (n mod 16)]
  end.

(** The value of a hexadecimal digit, in either case. *)
Definition hexval (c : N) : option N :=
  if (48 <=? c) && (c <=? 57) then Some (c - 48)
  else if (97 <=? c) && (c <=? 102) then Some (c - 87)
  else if (65 <=? c) && (c <=? 70) then Some (c - 55)
  else None.

(* ===================================================================== *)
(** ** [hashlib.sha256] *)
(* ===================================================================== *)

Module Sha256.
Local Open Scope Z_scope.

Definition w32 (x : Z) : Z := x mod 2 ^ 32.
Definition add32 (x y : Z) : Z := w32 (x + y).
Definition rotr (n x : Z) : Z :=
  Z.lor (Z.shiftr x n) (w32 (Z.shiftl x (32 - n))).
Definition Ch (x y z : Z) : Z :=
  Z.lxor (Z.land x y) (Z.land (w32 (Z.lnot x)) z).
Definition Maj (x y z : Z) : Z :=
  Z.lxor (Z.lxor (Z.land x y) (Z.land x z)) (Z.land y z).
Definition Sigma0 (x : Z) : Z :=
  Z.lxor (Z.lxor (rotr 2 x) (rotr 13 x)) (rotr 22 x).
Definition Sigma1 (x : Z) : Z :=
  Z.lxor (Z.lxor (rotr 6 x) (rotr 11 x)) (rotr 25 x).
Definition sigma0 (x : Z) : Z :=
  Z.lxor (Z.lxor (rotr 7 x) (rotr 18 x)) (Z.shiftr x 3).
Definition sigma1 (x : Z) : Z :=
  Z.lxor (Z.lxor (rotr 17 x) (rotr 19 x)) (Z.shiftr x 10).

(** The constants of the standard: the first 32 bits of the fractional
    parts of the cube roots (round constants) and of the square roots
    (initial state) of the first primes. *)
Definition is_prime (n : Z) : bool :=
  forallb (fun d => negb (n mod Z.of_nat d =? 0)) (seq 2 (Z.to_nat n - 2)).

(** The 64 primes up to 311. *)
Definition first_primes : list Z :=
  List.filter is_prime (List.map Z.of_nat (seq 2 310)).

(** The integer cube root of [n], found bit by bit from bit [bits - 1]. *)
Fixpoint root3 (bits : nat) (n r : Z) : Z :=
  match bits with
  | O => r
  | S b =>
    let c := r + 2 ^ Z.of_nat b in
    root3 b n (if c * c * c <=? n then c else r)
  end.

Definition frac_root3 (p : Z) : Z := w32 (root3 40 (p * 2 ^ 96) 0).
Definition frac_sqrt (p : Z) : Z := w32 (Z.sqrt (p * 2 ^ 64)).

Definition K : list Z := List.map frac_root3 first_primes.

(** The eight working words. *)
Record state := State {
  ha : Z; hb : Z; hc : Z; hd : Z; he : Z; hf : Z; hg : Z; hh : Z }.

Definition init : state :=
  State (frac_sqrt 2) (frac_sqrt 3) (frac_sqrt 5) (frac_sqrt 7)
        (frac_sqrt 11) (frac_sqrt 13) (frac_sqrt 17) (frac_sqrt 19).

(** Padding: a [1] bit, zeros up to 56 modulo 64, the bit length on 64 bits. *)
Definition be_bytes (k : nat) (n : Z) : list Z :=
  List.map (fun i => Z.shiftr n (8 * Z.of_nat i) mod 256) (rev (seq 0 k)).

Definition pad (msg : list Z) : list Z :=
  let len := Z.of_nat (length msg) in
  let zeros := Z.to_nat ((55 - len) mod 64) in
  msg ++ 0x80 :: repeat 0 zeros ++ be_bytes 8 (8 * len).

Fixpoint words (fuel : nat) (bs : list Z) : list Z :=
  match fuel, bs with
  | S fuel', b0 :: b1 :: b2 :: b3 :: bs' =>
    (Z.shiftl b0 24 + Z.shiftl b1 16 + Z.shiftl b2 8 + b3) :: words fuel' bs'
  | _, _ => []
  end.

(** The message schedule, built newest first: the head of [rw] is
    [W(t-1)]. *)
Fixpoint schedule (n : nat) (rw : list Z) : list Z :=
  match n with
  | O => rev rw
  | S n' =>
    let w := add32 (add32 (sigma1 (nth 1 rw 0)) (nth 6 rw 0))
                   (add32 (sigma0 (nth 14 rw 0)) (nth 15 rw 0)) in
    schedule n' (w :: rw)
  end.

Definition round (s : state) (kw : Z * Z) : state :=
  let t1 := add32 (add32 (add32 (hh s) (Sigma1 (he s)))
                         (add32 (Ch (he s) (hf s) (hg s)) (fst kw))) (snd kw) in
  let t2 := add32 (Sigma0 (ha s)) (Maj (ha s) (hb s) (hc s)) in
  State (add32 t1 t2) (ha s) (hb s) (hc s) (add32 (hd s) t1) (he s) (hf s) (hg s).

Definition compress (s : state) (block : list Z) : state :=
  let w := schedule 48 (rev (words 16 block)) in
  let r := fold_left round (combine K w) s in
  State (add32 (ha s) (ha r)) (add32 (hb s) (hb r)) (add32 (hc s) (hc r))
        (add32 (hd s) (hd r)) (add32 (he s) (he r)) (add32 (hf s) (hf r))
        (add32 (hg s) (hg r)) (add32 (hh s) (hh r)).

Fixpoint blocks (fuel : nat) (s : state) (bs : list Z) : state :=
  match fuel, bs with
  | S fuel', _ :: _ => blocks fuel' (compress s (take 64 bs)) (drop 64 bs)
  | _, _ => s
  end.

Definition digest (msg : list Z) : state :=
  let p := pad msg in blocks (length p) init p.

Definition hex8 (w : Z) : pystr := hex_digits 8 (Z.to_N w).

(** [hashlib.sha256(data).hexdigest()] *)
Definition hexdigest (data : list byte) : pystr :=
  let s := digest (List.map (fun b => Z.of_N (Byte.to_N b)) data) in
  hex8 (ha s) ++ hex8 (hb s) ++ hex8 (hc s) ++ hex8 (hd s) ++
  hex8 (he s) ++ hex8 (hf s) ++ hex8 (hg s) ++ hex8 (hh s).

End Sha256.

(** The content of a file, from a literal. *)
Definition bytes (s : string) : list byte := list_byte_of_string s.

(* ===================================================================== *)
(** ** Python values and dictionaries *)
(* ===================================================================== *)

(** The values [json.load] can return.  Integers are kept as numbers,
    floats as their lexeme ([NaN], [Infinity] and [-Infinity] included). *)
Inductive pyval :=
| PyNone
| PyBool (b : bool)
| PyInt (z : Z)
| PyFloat (lexeme : pystr)
| PyStr (s : pystr)
| PyList (l : list pyval)
| PyDict (d : list (pystr * pyval)).

(** A [dict] with string keys, in insertion order; every key occurs once. *)
Abbreviation pydict V := (list (pystr * V)).

(** [d[k] = v]: an existing key keeps its position. *)
Fixpoint dict_set {V} (d : pydict V) (k : pystr) (v : V) : pydict V :=
  match d with
  | [] => [(k, v)]
  | (k', v') :: d' =>
    if bool_decide (k' = k) then (k', v) :: d' else (k', v') :: dict_set d' k v
  end.

(** [d.get(k)] *)
Fixpoint dict_get {V} (d : pydict V) (k : pystr) : option V :=
  match d with
  | [] => None
  | (k', v') :: d' => if bool_decide (k' = k) then Some v' else dict_get d' k
  end.

(** [list(d.keys())] *)
Definition dict_keys {V} (d : pydict V) : list pystr := List.map fst d.

(** [k in d] *)
Definition dict_mem {V} (d : pydict V) (k : pystr) : bool :=
  bool_decide (k ∈ dict_keys d).

(* ===================================================================== *)
(** ** [json.dump(obj, f, indent=4)] for a dictionary of strings *)
(* ===================================================================== *)

Module Json.

(** One character of a string, as [ensure_ascii] writes it. *)
Definition escape_char (c : N) : pystr :=
  if c =? 34 then [92; 34]
  else if c =? 92 then [92; 92]
  else if c =? 10 then [92; 110]
  else if c =? 13 then [92; 114]
  else if c =? 9 then [92; 116]
  else if c =? 8 then [92; 98]
  else if c =? 12 then [92; 102]
  else if (32 <=? c) && (c <=? 126) then [c]
  else if c <? 0x10000 then [92; 117] ++ hex_digits 4 c
  else
    let n := c - 0x10000 in
    let s1 := N.lor 0xd800 (N.land (N.shiftr n 10) 0x3ff) in
    let s2 := N.lor 0xdc00 (N.land n 0x3ff) in
    [92; 117] ++ hex_digits 4 s1 ++ [92; 117] ++ hex_digits 4 s2.

Definition quote : N := 34.

Definition encode_str (s : pystr) : pystr :=
  quote :: concat (List.map escape_char s) ++ [quote].

Definition newline_indent : pystr := 10 :: str "    ".

Definition dump_item (kv : pystr * pystr) : pystr :=
  encode_str (fst kv) ++ str ": " ++ encode_str (snd kv).

(** The text [json.dump] writes for a [dict] from [str] to [str]. *)
Definition dumps (d : pydict pystr) : pystr :=
  match d with
  | [] => str "{}"
  | kv :: rest =>
    str "{" ++ newline_indent ++ dump_item kv ++
    concat (List.map (fun kv' => str "," ++ newline_indent ++ dump_item kv') rest) ++
    10 :: str "}"
  end.

(* ===================================================================== *)
(** ** [json.load] *)
(* ===================================================================== *)

Definition is_ws (c : N) : bool :=
  (c =? 32) || (c =? 9) || (c =? 10) || (c =? 13).

Fixpoint skip_ws (s : pystr) : pystr :=
  match s with
  | c :: s' => if is_ws c then skip_ws s' else s
  | [] => []
  end.

Definition hex4 (h1 h2 h3 h4 : N) : option N :=
  match hexval h1, hexval h2, hexval h3, hexval h4 with
  | Some a, Some b, Some c, Some d => Some (((a * 16 + b) * 16 + c) * 16 + d)
  | _, _, _, _ => None
  end.

Definition is_high_surrogate (c : N) : bool := (0xd800 <=? c) && (c <=? 0xdbff).
Definition is_low_surrogate (c : N) : bool := (0xdc00 <=? c) && (c <=? 0xdfff).

Definition join_surrogates (hi lo : N) : N :=
  0x10000 + N.lor (N.shiftl (hi - 0xd800) 10) (lo - 0xdc00).

(** The character a one-letter escape stands for. *)
Definition unescape (e : N) : option N :=
  if e =? 34 then Some 34
  else if e =? 92 then Some 92
  else if e =? 47 then Some 47
  else if e =? 98 then Some 8
  else if e =? 102 then Some 12
  else if e =? 110 then Some 10
  else if e =? 114 then Some 13
  else if e =? 116 then Some 9
  else None.

Definition cons_result (c : N) (r : option (pystr * pystr)) : option (pystr * pystr) :=
  match r with
  | Some (t, rest) => Some (c :: t, rest)
  | None => None
  end.

(** The body of a string literal, after its opening quote (strict mode):
    the decoded string and the text after the closing quote. *)
Fixpoint scanstring (s : pystr) : option (pystr * pystr) :=
  match s with
  | [] => None
  | c :: s1 =>
    if c =? 34 then Some ([], s1)
    else if c =? 92 then
      match s1 with
      | [] => None
      | e :: s2 =>
        if e =? 117 then
          match s2 with
          | h1 :: h2 :: h3 :: h4 :: s3 =>
            match hex4 h1 h2 h3 h4 with
            | None => None
            | Some u =>
              if is_high_surrogate u then
                match s3 with
                | b :: v :: g1 :: g2 :: g3 :: g4 :: s4 =>
                  if (b =? 92) && (v =? 117) then
                    match hex4 g1 g2 g3 g4 with
                    | None => None
                    | Some u2 =>
                      if is_low_surrogate u2
                      then cons_result (join_surrogates u u2) (scanstring s4)
                      else cons_result u (scanstring s3)
                    end
                  else cons_result u (scanstring s3)
                | _ => cons_result u (scanstring s3)
                end
              else cons_result u (scanstring s3)
            end
          | _ => None
          end
        else
          match unescape e with
          | Some ch => cons_result ch (scanstring s2)
          | None => None
          end
      end
    else if c <? 32 then None
    else cons_result c (scanstring s1)
  end.

(** *** Numbers: an optional sign, [0] or digits without a leading zero,
    an optional fraction, an optional exponent *)

Definition is_digit (c : N) : bool := (48 <=? c) && (c <=? 57).

Fixpoint span_digits (s : pystr) : pystr * pystr :=
  match s with
  | c :: s' =>
    if is_digit c then let (d, r) := span_digits s' in (c :: d, r) else ([], s)
  | [] => ([], [])
  end.

Definition match_integer (s : pystr) : option (pystr * pystr) :=
  let (sign, s1) :=
    match s with
    | c :: s' => if c =? 45 then ([c], s') else ([], s)
    | [] => ([], s)
    end in
  match s1 with
  | c :: s2 =>
    if c =? 48 then Some (sign ++ [c], s2)
    else if is_digit c then
      let (d, r) := span_digits s2 in Some (sign ++ c :: d, r)
    else None
  | [] => None
  end.

Definition match_frac (s : pystr) : pystr * pystr :=
  match s with
  | c :: s1 =>
    if c =? 46 then
      match span_digits s1 with
      | ([], _) => ([], s)
      | (d, r) => (c :: d, r)
      end
    else ([], s)
  | [] => ([], s)
  end.

Definition match_exp (s : pystr) : pystr * pystr :=
  match s with
  | c :: s1 =>
    if (c =? 101) || (c =? 69) then
      let (sign, s2) :=
        match s1 with
        | c2 :: s' => if (c2 =? 43) || (c2 =? 45) then ([c2], s') else ([], s1)
        | [] => ([], s1)
        end in
      match span_digits s2 with
      | ([], _) => ([], s)
      | (d, r) => (c :: sign ++ d, r)
      end
    else ([], s)
  | [] => ([], s)
  end.

(** [int(lexeme)] for a lexeme matched by [match_integer]. *)
Definition int_of_lexeme (l : pystr) : Z :=
  let digits_value (ds : pystr) : Z :=
    fold_left (fun a c => (10 * a + Z.of_N (c - 48))%Z) ds 0%Z in
  match l with
  | c :: ds => if c =? 45 then (- digits_value ds)%Z else digits_value l
  | [] => 0%Z
  end.

Definition match_number (s : pystr) : option (pyval * pystr) :=
  match match_integer s with
  | None => None
  | Some (int, s1) =>
    let (frac, s2) := match_frac s1 in
    let (exp, s3) := match_exp s2 in
    match frac, exp with
    | [], [] => Some (PyInt (int_of_lexeme int), s3)
    | _, _ => Some (PyFloat (int ++ frac ++ exp), s3)
    end
  end.

(** The literals and constants, tried in the order of the scanner. *)
Definition scan_atom (s : pystr) : option (pyval * pystr) :=
  if startswith (str "null") s then Some (PyNone, drop 4 s)
  else if startswith (str "true") s then Some (PyBool true, drop 4 s)
  else if startswith (str "false") s then Some (PyBool false, drop 5 s)
  else match match_number s with
       | Some r => Some r
       | None =>
         if startswith (str "NaN") s then Some (PyFloat (str "NaN"), drop 3 s)
         else if startswith (str "Infinity") s
         then Some (PyFloat (str "Infinity"), drop 8 s)
         else if startswith (str "-Infinity") s
         then Some (PyFloat (str "-Infinity"), drop 9 s)
         else None
       end.

(** [scan_once]: one value at the head of the text.  [fuel] bounds the
    number of nested calls and of loop iterations; one more than the length
    of the text always suffices.  [None] stands for [JSONDecodeError]. *)
Fixpoint scan_once (fuel : nat) (s : pystr) : option (pyval * pystr) :=
  match fuel with
  | O => None
  | S fuel' =>
    match s with
    | [] => None
    | c :: s1 =>
      if c =? 34 then
        match scanstring s1 with
        | Some (t, rest) => Some (PyStr t, rest)
        | None => None
        end
      else if c =? 123 then
        match skip_ws s1 with
        | c2 :: s2 =>
          if c2 =? 125 then Some (PyDict [], s2)
          else match parse_members fuel' (c2 :: s2) [] with
               | Some (d, rest) => Some (PyDict d, rest)
               | None => None
               end
        | [] => None
        end
      else if c =? 91 then
        match skip_ws s1 with
        | c2 :: s2 =>
          if c2 =? 93 then Some (PyList [], s2)
          else match parse_elements fuel' (c2 :: s2) with
               | Some (l, rest) => Some (PyList l, rest)
               | None => None
               end
        | [] => None
        end
      else scan_atom s
    end
  end

(** The members of an object, from the opening quote of a key on; a key
    that occurs again replaces the earlier value. *)
with parse_members (fuel : nat) (s : pystr) (acc : pydict pyval)
  : option (pydict pyval * pystr) :=
  match fuel with
  | O => None
  | S fuel' =>
    match s with
    | c :: s1 =>
      if c =? 34 then
        match scanstring s1 with
        | None => None
        | Some (key, s2) =>
          match skip_ws s2 with
          | c3 :: s3 =>
            if c3 =? 58 then
              match scan_once fuel' (skip_ws s3) with
              | None => None
              | Some (v, s4) =>
                match skip_ws s4 with
                | c5 :: s5 =>
                  if c5 =? 125 then Some (dict_set acc key v, s5)
                  else if c5 =? 44
                  then parse_members fuel' (skip_ws s5) (dict_set acc key v)
                  else None
                | [] => None
                end
              end
            else None
          | [] => None
          end
        end
      else None
    | [] => None
    end
  end

(** The elements of an array, from the first character of an element on. *)
with parse_elements (fuel : nat) (s : pystr) : option (list pyval * pystr) :=
  match fuel with
  | O => None
  | S fuel' =>
    match scan_once fuel' s with
    | None => None
    | Some (v, s1) =>
      match skip_ws s1 with
      | c2 :: s2 =>
        if c2 =? 93 then Some ([v], s2)
        else if c2 =? 44 then
          match parse_elements fuel' (skip_ws s2) with
          | Some (l, rest) => Some (v :: l, rest)
          | None => None
          end
        else None
      | [] => None
      end
    end
  end.

(** [json.loads]: no byte order mark, one value, nothing but white space
    around it. *)
Definition loads (s : pystr) : option pyval :=
  if startswith [0xfeff] s then None
  else
    match scan_once (S (length s)) (skip_ws s) with
    | Some (v, rest) =>
      match skip_ws rest with
      | [] => Some v
      | _ :: _ => None
      end
    | None => None
    end.

End Json.

(** The snapshot as [json.load] returns it after [json.dump]. *)
Definition dict_value (d : pydict pystr) : pyval :=
  PyDict (List.map (fun kv => (fst kv, PyStr (snd kv))) d).

(** A text literal in which ['] stands for the double quote. *)
Definition text (s : string) : pystr :=
  List.map (fun c => if c =? 39 then 34 else c) (str s).

(* ===================================================================== *)
(** ** The world of the monitor *)
(* ===================================================================== *)

(** The exceptions the module can meet.  Each of them derives from
    [Exception]; the interrupt of the user is modelled apart, in
    [monitor_files]. *)
Inductive exn :=
| OSError
| UnicodeDecodeError
| JSONDecodeError
| TypeError
| KeyError
| AttributeError
| SMTPException.

(** The two state files. *)
Inductive file_name := HASH_FILE | BACKUP_FILE.

(** What a state file holds: text, or bytes that do not decode as text. *)
Inductive file_data :=
| Text (s : pystr)
| Undecodable.

(** The persisted store: [None] when the file does not exist. *)
Record store := Store {
  hash_file : option file_data;
  backup_file : option file_data }.

Definition get_file (f : file_name) (fs : store) : option file_data :=
  match f with
  | HASH_FILE => hash_file fs
  | BACKUP_FILE => backup_file fs
  end.

Definition set_file (f : file_name) (d : file_data) (fs : store) : store :=
  match f with
  | HASH_FILE => Store (Some d) (backup_file fs)
  | BACKUP_FILE => Store (hash_file fs) (Some d)
  end.

(** How [open(f, 'w')] followed by the writes ends: well, with an error
    before the file is touched, or with an error after the file was
    truncated and [n] characters were written. *)
Inductive write_outcome :=
| WriteOk
| WriteFailsAtOpen
| WriteFailsAfter (n : nat).

(** The change types passed to [send_email_alert]: ["Modified"],
    ["New File Added"], ["Deleted"]. *)
Inductive change_type := Modified | NewFileAdded | Deleted.

(** What lies outside the program during one pass. *)
Record environment := Environment {
  (** [os.walk(top)]: the directories met, each with its file names *)
  os_walk : pystr -> list (pystr * list pystr);
  (** the bytes [open(path, 'rb')] gives; [None] when opening or reading
      raises *)
  read_bytes : pystr -> option (list byte);
  (** [open(HASH_FILE, 'r')] raises in [load_hashes] / in [backup_hashes] *)
  load_open_fails : bool;
  backup_open_fails : bool;
  backup_write : write_outcome;
  hash_write : write_outcome;
  (** [EMAIL_SENDER], [EMAIL_PASSWORD] and [EMAIL_RECEIVER] are all set *)
  email_configured : bool;
  (** the SMTP exchange for this alert raises *)
  smtp_fails : pystr -> change_type -> bool }.

(** The module constants that configure a pass. *)
Record config := Config {
  FOLDER_TO_MONITOR : pystr;
  EXCLUDE_EXTENSIONS : list pystr;
  EXCLUDE_DIRECTORIES : list pystr }.

Definition default_config : config :=
  Config (str "test_folder") [str ".tmp"; str ".log"] [str "__pycache__"; str ".git"].

(** *** Log, console and I/O events *)

Inductive level := INFO | WARNING | ERROR.

(** The messages of the module, without their wording. *)
Inductive message :=
| BackupCreated
| ErrorCreatingBackup (e : exn)
| ErrorHashing (filepath : pystr) (e : exn)
| ErrorReadingHashFile
| ErrorSavingHashes (e : exn)
| EmailCredentialsNotSet
| EmailAlertSent (filepath : pystr) (c : change_type)
| FailedToSendEmail (e : exn)
| FileChanged (filepath : pystr)
| NewFileDetected (filepath : pystr)
| FileDeleted (filepath : pystr)
| Monitoring (file_count : nat)
| MonitoringStarted
| MonitoringStopped.

(** What a run leaves behind: the records of [logging], the lines of
    [print], the calls of [open(f, 'w')] on a state file (recorded when the
    call is made, whether it succeeds or not) and the mails the SMTP server
    accepted. *)
Inductive event :=
| Log (l : level) (m : message)
| Print (m : message)
| OpenWrite (f : file_name)
| SendMail (filepath : pystr) (c : change_type).

(** *** The monad: state, exceptions and the trace of events *)

Record state := State {
  files : store;
  trace : list event }.

Inductive result (A : Type) :=
| Ok (a : A)
| Raise (e : exn).
Arguments Ok {A} a.
Arguments Raise {A} e.

Definition M (A : Type) : Type := state -> result A * state.

Definition ret {A} (a : A) : M A := fun st => (Ok a, st).

Definition bind {A B} (m : M A) (k : A -> M B) : M B :=
  fun st =>
    match m st with
    | (Ok a, st') => k a st'
    | (Raise e, st') => (Raise e, st')
    end.

Definition raise {A} (e : exn) : M A := fun st => (Raise e, st).

(** [try: m  except ...: h e] *)
Definition try_except {A} (m : M A) (h : exn -> M A) : M A :=
  fun st =>
    match m st with
    | (Ok a, st') => (Ok a, st')
    | (Raise e, st') => h e st'
    end.

Definition emit (e : event) : M unit :=
  fun st => (Ok tt, State (files st) (trace st ++ [e])).

Definition get_files : M store := fun st => (Ok (files st), st).

Definition put_files (fs : store) : M unit :=
  fun st => (Ok tt, State fs (trace st)).

#[global] Instance M_ret : MRet M := @ret.
#[global] Instance M_bind : MBind M := fun A B k m => bind m k.

Definition logging (l : level) (m : message) : M unit := emit (Log l m).
Definition print (m : message) : M unit := emit (Print m).

(** [for x in l: body x], threading the loop variables [b]. *)
Fixpoint for_each {A B} (l : list A) (body : A -> B -> M B) (b : B) : M B :=
  match l with
  | [] => ret b
  | x :: l' => b' ← body x b; for_each l' body b'
  end.

(** [os.path.exists(f)] *)
Definition exists_file (f : file_name) : M bool :=
  fs ← get_files; ret (bool_decide (is_Some (get_file f fs))).

(** [with open(f, 'r') as h: h.read()] *)
Definition read_text (f : file_name) (open_fails : bool) : M pystr :=
  fs ← get_files;
  match get_file f fs with
  | None => raise OSError
  | Some d =>
    if open_fails then raise OSError
    else match d with
         | Text s => ret s
         | Undecodable => raise UnicodeDecodeError
         end
  end.

(** [with open(f, 'w') as h:] followed by the writes of [data]. *)
Definition write_text (f : file_name) (data : pystr) (o : write_outcome) : M unit :=
  emit (OpenWrite f);;
  match o with
  | WriteFailsAtOpen => raise OSError
  | WriteOk => fs ← get_files; put_files (set_file f (Text data) fs)
  | WriteFailsAfter n =>
    fs ← get_files;
    put_files (set_file f (Text (take n data)) fs);;
    raise OSError
  end.

(* ===================================================================== *)
(** ** Operations of Python the pass applies to the loaded value *)
(* ===================================================================== *)

(** [filepath in hashes] *)
Definition py_contains (hashes : pyval) (filepath : pystr) : M bool :=
  match hashes with
  | PyDict d => ret (dict_mem d filepath)
  | PyList l =>
    ret (existsb (fun v => match v with
                           | PyStr s => bool_decide (s = filepath)
                           | _ => false
                           end) l)
  | PyStr s => ret (contains filepath s)
  | _ => raise TypeError
  end.

(** [hashes[filepath]] *)
Definition py_getitem (hashes : pyval) (filepath : pystr) : M pyval :=
  match hashes with
  | PyDict d =>
    match dict_get d filepath with
    | Some v => ret v
    | None => raise KeyError
    end
  | _ => raise TypeError
  end.

(** [hashes.keys()] *)
Definition py_keys (hashes : pyval) : M (list pystr) :=
  match hashes with
  | PyDict d => ret (dict_keys d)
  | _ => raise AttributeError
  end.

(** [v != file_hash] for a string [file_hash] *)
Definition py_ne_str (v : pyval) (file_hash : pystr) : bool :=
  match v with
  | PyStr s => negb (bool_decide (s = file_hash))
  | _ => true
  end.

(** Equality of two key views: the same set of keys. *)
Definition keys_eq (k1 k2 : list pystr) : bool :=
  forallb (fun k => bool_decide (k ∈ k2)) k1 &&
  forallb (fun k => bool_decide (k ∈ k1)) k2.

(* ===================================================================== *)
(** ** The module [file_checker] *)
(* ===================================================================== *)

(** The local variables of [check_folder] at its end.  The Python function
    returns [None]; the model returns its locals so that statements can
    name the snapshot of the pass. *)
Record locals := Locals {
  hashes : pyval;
  changes_detected : bool;
  file_count : nat;
  current_files : pydict pystr }.

Section FileChecker.

Variable cfg : config.
Variable env : environment.

Definition backup_hashes : M unit :=
  present ← exists_file HASH_FILE;
  if (present : bool) then
    try_except
      (data ← read_text HASH_FILE (backup_open_fails env);
       write_text BACKUP_FILE data (backup_write env);;
       logging INFO BackupCreated)
      (fun e => logging ERROR (ErrorCreatingBackup e))
  else ret tt.

Definition calculate_file_hash (filepath : pystr) : M (option pystr) :=
  try_except
    (match read_bytes env filepath with
     | Some data => ret (Some (Sha256.hexdigest data))
     | None => raise OSError
     end)
    (fun e => logging ERROR (ErrorHashing filepath e);; ret None).

Definition load_hashes : M pyval :=
  present ← exists_file HASH_FILE;
  if (present : bool) then
    try_except
      (data ← read_text HASH_FILE (load_open_fails env);
       match Json.loads data with
       | Some v => ret v
       | None => raise JSONDecodeError
       end)
      (fun e =>
         match e with
         | JSONDecodeError => logging WARNING ErrorReadingHashFile;; ret (PyDict [])
         | _ => raise e
         end)
  else ret (PyDict []).

Definition save_hashes (hashes : pydict pystr) : M unit :=
  try_except
    (backup_hashes;;
     write_text HASH_FILE (Json.dumps hashes) (hash_write env))
    (fun e => logging ERROR (ErrorSavingHashes e)).

Definition send_email_alert (filepath : pystr) (c : change_type) : M unit :=
  if negb (email_configured env) then logging WARNING EmailCredentialsNotSet
  else
    try_except
      ((if smtp_fails env filepath c then raise SMTPException
        else emit (SendMail filepath c));;
       logging INFO (EmailAlertSent filepath c))
      (fun e => logging ERROR (FailedToSendEmail e)).

(** The tests of lines 122 and 126. *)
Definition excluded_directory (root : pystr) : bool :=
  existsb (fun excluded => contains excluded root) (EXCLUDE_DIRECTORIES cfg).

Definition excluded_extension (file : pystr) : bool :=
  existsb (fun ext => endswith file ext) (EXCLUDE_EXTENSIONS cfg).

(** [changes_detected = True] *)
Definition set_changes_detected (l : locals) : locals :=
  Locals (hashes l) true (file_count l) (current_files l).

(** [current_files[filepath] = file_hash; file_count += 1] *)
Definition record_file (filepath file_hash : pystr) (l : locals) : locals :=
  Locals (hashes l) (changes_detected l) (S (file_count l))
         (dict_set (current_files l) filepath file_hash).

(** The body of the inner loop (lines 126 to 146) for one file name. *)
Definition check_file (root file : pystr) (l : locals) : M locals :=
  if excluded_extension file then ret l
  else
    let filepath := path_join root file in
    file_hash ← calculate_file_hash filepath;
    match file_hash with
    | None => ret l
    | Some file_hash =>
      if bool_decide (file_hash = []) then ret l
      else
        let l := record_file filepath file_hash l in
        known ← py_contains (hashes l) filepath;
        if (known : bool) then
          old ← py_getitem (hashes l) filepath;
          if py_ne_str old file_hash then
            print (FileChanged filepath);;
            logging WARNING (FileChanged filepath);;
            send_email_alert filepath Modified;;
            ret (set_changes_detected l)
          else ret l
        else
          print (NewFileDetected filepath);;
          logging INFO (NewFileDetected filepath);;
          send_email_alert filepath NewFileAdded;;
          ret (set_changes_detected l)
    end.

(** The body of the outer loop (lines 122 to 146) for one directory. *)
Definition check_directory (entry : pystr * list pystr) (l : locals) : M locals :=
  if excluded_directory (fst entry) then ret l
  else for_each (snd entry) (check_file (fst entry)) l.

(** The body of the loop of lines 150 to 154. *)
Definition report_deleted (deleted_file : pystr) (l : locals) : M locals :=
  print (FileDeleted deleted_file);;
  logging WARNING (FileDeleted deleted_file);;
  send_email_alert deleted_file Deleted;;
  ret (set_changes_detected l).

Definition check_folder : M locals :=
  hashes ← load_hashes;
  l ← for_each (os_walk env (FOLDER_TO_MONITOR cfg)) check_directory
        (Locals hashes false 0 []);
  old_keys ← py_keys hashes;
  let deleted_files :=
    List.filter (fun k => negb (dict_mem (current_files l) k)) (remove_dups old_keys) in
  l ← for_each deleted_files report_deleted l;
  (if changes_detected l || negb (keys_eq old_keys (dict_keys (current_files l)))
   then save_hashes (current_files l)
   else ret tt);;
  logging INFO (Monitoring (file_count l));;
  print (Monitoring (file_count l));;
  ret l.

End FileChecker.

(** [monitor_files], run on the environments the successive passes find;
    the interrupt of the user arrives during the sleep that follows the
    last of them.  An exception of a pass leaves the loop and the
    function: the process ends with it. *)
Definition monitor_files (cfg : config) (envs : list environment) : M unit :=
  print MonitoringStarted;;
  for_each envs (fun env _ => check_folder cfg env;; ret tt) tt;;
  print MonitoringStopped;;
  logging INFO MonitoringStopped.

(** A pass from a given store, with an empty trace. *)
Definition run {A} (m : M A) (fs : store) : result A * state := m (State fs []).

(* ===================================================================== *)
(** ** Notions of the statements *)
(* ===================================================================== *)

(** *** Text and well-formed snapshots *)

(** The characters of the strings the file-system layer yields: Unicode
    scalar values, and the lone low surrogates that stand for bytes that do
    not decode.  A high surrogate never occurs in them. *)
Definition text_char (c : N) : bool :=
  (c <? 0x110000) && negb (Json.is_high_surrogate c).

Definition wf_text (s : pystr) : Prop := forallb text_char s = true.

#[global] Instance wf_text_dec (s : pystr) : Decision (wf_text s).
Proof. unfold wf_text. apply _. Defined.

(** A well-formed snapshot: a [dict] (each key once) from text to text. *)
Definition wf_snapshot (S : pydict pystr) : Prop :=
  NoDup (dict_keys S) /\ Forall (fun kv => wf_text (fst kv) /\ wf_text (snd kv)) S.

(** Two values are the same mapping: dictionaries with the same keys and
    the same value at each key (the [==] of Python on [dict]). *)
Definition same_mapping (v v' : pyval) : Prop :=
  exists a b, v = PyDict a /\ v' = PyDict b /\ forall k, dict_get a k = dict_get b k.

(** The state file holds a mapping: [load_hashes] returns the [dict] [d]. *)
Definition loads_mapping (env : environment) (fs : store) (d : pydict pyval) : Prop :=
  fst (run (load_hashes env) fs) = Ok (PyDict d).

(** The keys of a dictionary, as a set. *)
Definition keys {V} (d : pydict V) : gset pystr := list_to_set (dict_keys d).

(** *** The exclusion policy *)

(** The exclusion policy, in the words of the specification: some
    directory segment of [root] matches (contains) an excluded fragment, or
    the file name ends with an excluded extension. *)
Definition excluded_by_policy (cfg : config) (root file : pystr) : Prop :=
  (exists seg frag, seg ∈ segments root /\ frag ∈ EXCLUDE_DIRECTORIES cfg /\
                    contains frag seg = true) \/
  (exists ext, ext ∈ EXCLUDE_EXTENSIONS cfg /\ endswith file ext = true).

(** The paths of all the files the walk lists. *)
Definition listed (cfg : config) (env : environment) : list pystr :=
  flat_map (fun entry => List.map (path_join (fst entry)) (snd entry))
           (os_walk env (FOLDER_TO_MONITOR cfg)).

(** The paths the pass digests, in the order of the walk: those that pass
    the tests of lines 122 and 126. *)
Definition directory_candidates (cfg : config) (entry : pystr * list pystr) : list pystr :=
  if excluded_directory cfg (fst entry) then []
  else List.map (path_join (fst entry))
         (List.filter (fun file => negb (excluded_extension cfg file)) (snd entry)).

Definition candidates (cfg : config) (env : environment) : list pystr :=
  flat_map (directory_candidates cfg) (os_walk env (FOLDER_TO_MONITOR cfg)).

(** *** The result of a pass *)

(** The change a log record reports. *)
Definition event_change (e : event) : option (change_type * pystr) :=
  match e with
  | Log INFO (NewFileDetected p) => Some (NewFileAdded, p)
  | Log WARNING (FileChanged p) => Some (Modified, p)
  | Log WARNING (FileDeleted p) => Some (Deleted, p)
  | _ => None
  end.

(** The log record of a change. *)
Definition change_log (c : change_type) (p : pystr) : event :=
  match c with
  | NewFileAdded => Log INFO (NewFileDetected p)
  | Modified => Log WARNING (FileChanged p)
  | Deleted => Log WARNING (FileDeleted p)
  end.

#[global] Instance change_type_eq_dec : EqDecision change_type.
Proof. solve_decision. Defined.

(** The paths a trace reports with the change [c]. *)
Definition reported (c : change_type) (t : list event) : gset pystr :=
  list_to_set
    (omap (fun e => match event_change e with
                    | Some (c', p) => if decide (c' = c) then Some p else None
                    | None => None
                    end) t).

(** The result of a pass, as the specification names it. *)
Record ScanResult := {
  added : gset pystr;
  modified : gset pystr;
  deleted : gset pystr;
  unchanged : gset pystr }.

(** The result [check_folder] produces, read off its run: the paths it
    reports as new, changed and deleted, and the paths of the new snapshot
    about which it stays silent. *)
Definition scan_result (l : locals) (t : list event) : ScanResult :=
  {| added := reported NewFileAdded t;
     modified := reported Modified t;
     deleted := reported Deleted t;
     unchanged := keys (current_files l) ∖ (reported NewFileAdded t ∪ reported Modified t) |}.

(** The diff of the specification (its section 4.4), a function of the two
    mappings: the keys of [old] that [new] lacks are deleted; a key of
    [new] is added when [old] lacks it, modified when [old] maps it to
    another value, unchanged otherwise. *)
Definition diff (old : pydict pyval) (new : pydict pystr) : ScanResult :=
  let differs (p : pystr) : bool :=
    match dict_get old p, dict_get new p with
    | Some v, Some h => py_ne_str v h
    | _, _ => false
    end in
  {| deleted := keys old ∖ keys new;
     added := list_to_set (List.filter (fun p => negb (dict_mem old p)) (dict_keys new));
     modified := list_to_set (List.filter differs (dict_keys new));
     unchanged :=
       list_to_set (List.filter (fun p => dict_mem old p && negb (differs p))
                                (dict_keys new)) |}.

(** The pass with the save as the specification words it: unconditional.
    It differs from [check_folder] in the test of line 157 only. *)
Definition check_folder_unconditional (cfg : config) (env : environment) : M locals :=
  hashes ← load_hashes env;
  l ← for_each (os_walk env (FOLDER_TO_MONITOR cfg)) (check_directory cfg env)
        (Locals hashes false 0 []);
  old_keys ← py_keys hashes;
  let deleted_files :=
    List.filter (fun k => negb (dict_mem (current_files l) k)) (remove_dups old_keys) in
  l ← for_each deleted_files (report_deleted env) l;
  save_hashes env (current_files l);;
  logging INFO (Monitoring (file_count l));;
  print (Monitoring (file_count l));;
  ret l.

(* ===================================================================== *)
(** ** Summaries of the runs *)
(* ===================================================================== *)

(** The functions below say in closed form what each function of the module
    returns, what it leaves in the store and which events it records; the
    lemmas named [_run] prove that the monadic code computes them. *)

(** *** The round trip through the state file *)

(** One more member of the object being parsed. *)
Definition add_item (acc : pydict pyval) (kv : pystr * pystr) : pydict pyval :=
  dict_set acc (fst kv) (PyStr (snd kv)).

(** The text [json.dump] writes for the members after the first. *)
Definition more_items (rest : pydict pystr) : pystr :=
  concat (List.map (fun kv' => str "," ++ Json.newline_indent ++ Json.dump_item kv') rest).

(** *** Alerts and the visit of one path *)

Definition email_events (env : environment) (p : pystr) (c : change_type) : list event :=
  if negb (email_configured env) then [Log WARNING EmailCredentialsNotSet]
  else if smtp_fails env p c then [Log ERROR (FailedToSendEmail SMTPException)]
  else [SendMail p c; Log INFO (EmailAlertSent p c)].

Definition change_events (env : environment) (p : pystr) (c : change_type) : list event :=
  match c with
  | Modified => [Print (FileChanged p); Log WARNING (FileChanged p)]
  | NewFileAdded => [Print (NewFileDetected p); Log INFO (NewFileDetected p)]
  | Deleted => [Print (FileDeleted p); Log WARNING (FileDeleted p)]
  end ++ email_events env p c.

(** The class of a path whose digest is [h], against the loaded mapping:
    [None] for a path that is known with the same digest. *)
Definition classify (d : pydict pyval) (p h : pystr) : option change_type :=
  match dict_get d p with
  | None => Some NewFileAdded
  | Some v => if py_ne_str v h then Some Modified else None
  end.

(** The digest [calculate_file_hash] returns for a path. *)
Definition digest_of (env : environment) (p : pystr) : option pystr :=
  match read_bytes env p with
  | Some data => Some (Sha256.hexdigest data)
  | None => None
  end.

(** The locals after the visit of a candidate path, and the events of the
    visit. *)
Definition visit_locals (env : environment) (d : pydict pyval) (p : pystr) (l : locals) : locals :=
  match digest_of env p with
  | None => l
  | Some h =>
    match classify d p h with
    | Some _ => set_changes_detected (record_file p h l)
    | None => record_file p h l
    end
  end.

Definition visit_events (env : environment) (d : pydict pyval) (p : pystr) : list event :=
  match digest_of env p with
  | None => [Log ERROR (ErrorHashing p OSError)]
  | Some h =>
    match classify d p h with
    | Some c => change_events env p c
    | None => []
    end
  end.

(** Whether the visit of a path detects a change. *)
Definition changed (env : environment) (d : pydict pyval) (p : pystr) : bool :=
  match digest_of env p with
  | Some h => bool_decide (is_Some (classify d p h))
  | None => false
  end.

(** *** The two loops *)

Definition scan_locals (env : environment) (d : pydict pyval) (ps : list pystr)
    (l : locals) : locals :=
  fold_left (fun l p => visit_locals env d p l) ps l.

Definition scan_events (env : environment) (d : pydict pyval) (ps : list pystr) : list event :=
  flat_map (visit_events env d) ps.

(** The dictionary [current_files] after the visits of [ps], from [cf]. *)
Definition snapshot_of (env : environment) (ps : list pystr) (cf : pydict pystr) : pydict pystr :=
  fold_left (fun cf p => match digest_of env p with
                         | Some h => dict_set cf p h
                         | None => cf
                         end) ps cf.

(** The set [deleted_files] of line 149. *)
Definition deleted_files (d : pydict pyval) (cur : pydict pystr) : list pystr :=
  List.filter (fun k => negb (dict_mem cur k)) (remove_dups (dict_keys d)).

Definition deleted_events (env : environment) (dels : list pystr) : list event :=
  flat_map (fun p => change_events env p Deleted) dels.

Definition after_deleted (dels : list pystr) (l : locals) : locals :=
  match dels with
  | [] => l
  | _ :: _ => set_changes_detected l
  end.

(** *** The state files *)

(** What [load_hashes] returns and logs, from the store. *)
Definition load_outcome (env : environment) (fs : store) : result pyval * list event :=
  match hash_file fs with
  | None => (Ok (PyDict []), [])
  | Some data =>
    if load_open_fails env then (Raise OSError, [])
    else match data with
         | Undecodable => (Raise UnicodeDecodeError, [])
         | Text s =>
           match Json.loads s with
           | Some v => (Ok v, [])
           | None => (Ok (PyDict []), [Log WARNING ErrorReadingHashFile])
           end
         end
  end.

(** The store after a write of [data] to [f] that ends as [o] says. *)
Definition written (f : file_name) (data : pystr) (o : write_outcome) (fs : store) : store :=
  match o with
  | WriteOk => set_file f (Text data) fs
  | WriteFailsAtOpen => fs
  | WriteFailsAfter n => set_file f (Text (take n data)) fs
  end.

(** What [backup_hashes] and [save_hashes] leave in the store, and their
    events. *)
Definition backup_outcome (env : environment) (fs : store) : store * list event :=
  match hash_file fs with
  | None => (fs, [])
  | Some data =>
    if backup_open_fails env then (fs, [Log ERROR (ErrorCreatingBackup OSError)])
    else match data with
         | Undecodable => (fs, [Log ERROR (ErrorCreatingBackup UnicodeDecodeError)])
         | Text s =>
           (written BACKUP_FILE s (backup_write env) fs,
            OpenWrite BACKUP_FILE ::
            match backup_write env with
            | WriteOk => [Log INFO BackupCreated]
            | _ => [Log ERROR (ErrorCreatingBackup OSError)]
            end)
         end
  end.

Definition save_outcome (env : environment) (new : pydict pystr) (fs : store)
  : store * list event :=
  let (fs1, t1) := backup_outcome env fs in
  (written HASH_FILE (Json.dumps new) (hash_write env) fs1,
   t1 ++ OpenWrite HASH_FILE ::
   match hash_write env with
   | WriteOk => []
   | _ => [Log ERROR (ErrorSavingHashes OSError)]
   end).

(** *** A whole pass, from a state file that holds the mapping [d] *)

Definition scanned (cfg : config) (env : environment) (d : pydict pyval) : locals :=
  scan_locals env d (candidates cfg env) (Locals (PyDict d) false 0 []).

Definition pass_locals (cfg : config) (env : environment) (d : pydict pyval) : locals :=
  after_deleted (deleted_files d (current_files (scanned cfg env d))) (scanned cfg env d).

(** The test of line 157. *)
Definition saves (d : pydict pyval) (l : locals) : bool :=
  changes_detected l || negb (keys_eq (dict_keys d) (dict_keys (current_files l))).

Definition pass_save (cfg : config) (env : environment) (d : pydict pyval) (fs : store)
  : store * list event :=
  if saves d (pass_locals cfg env d)
  then save_outcome env (current_files (pass_locals cfg env d)) fs
  else (fs, []).

Definition pass_events (cfg : config) (env : environment) (d : pydict pyval) (fs : store)
  : list event :=
  snd (load_outcome env fs) ++
  scan_events env d (candidates cfg env) ++
  deleted_events env (deleted_files d (current_files (scanned cfg env d))) ++
  snd (pass_save cfg env d fs) ++
  [Log INFO (Monitoring (file_count (pass_locals cfg env d)));
   Print (Monitoring (file_count (pass_locals cfg env d)))].

(** *** Tactics *)

(** Unfold the operations of the monad. *)
Ltac run_monad :=
  cbv [mbind M_bind bind ret raise try_except emit logging print
       get_files put_files files trace].

(** Refute the membership [H] of an event in a list of other events. *)
Ltac no_such_event H :=
  repeat (first [ apply elem_of_nil in H; contradiction
                | apply elem_of_cons in H as [H|H]; [try discriminate|]
                | apply elem_of_app in H as [H|H] ]).

(** Decide a closed proposition by evaluation. *)
Ltac by_compute := apply (bool_decide_unpack _); vm_compute; exact I.

(* ===================================================================== *)
(** ** Notions of the further properties *)
(* ===================================================================== *)

(** A lower-case hexadecimal digit. *)
Definition is_hex_lower (c : N) : bool :=
  ((48 <=? c) && (c <=? 57)) || ((97 <=? c) && (c <=? 102)).




(** The paths a trace reports as changed, in the order of the reports. *)
Definition reported_paths (t : list event) : list pystr :=
  List.map snd (omap event_change t).

(* ===================================================================== *)
(** ** A concrete world *)
(* ===================================================================== *)

(** The watched folder holds [a.txt] with the content [hello], a file
    [cache.tmp], an unreadable [b.txt], and a [.git] directory; no fault
    occurs and no e-mail account is configured. *)
Definition scenario_env : environment :=
  Environment
    (fun top => [(top, [str "a.txt"; str "cache.tmp"; str "b.txt"]);
                 (path_join top (str ".git"), [str "config"])])
    (fun p => if bool_decide (p = str "test_folder/a.txt") then Some (bytes "hello")
              else if bool_decide (p = str "test_folder/b.txt") then None
              else Some (bytes "x"))
    false false WriteOk WriteOk false (fun _ _ => false).

(** The snapshot of that folder. *)
Definition scenario_snapshot : pydict pystr :=
  [(str "test_folder/a.txt",
    str "2cf24dba5fb0a30e26e83b2ac5b9e29e1b161e5c1fa7425e73043362938b9824")].

(** The same snapshot, as [json.load] returns it. *)
Definition scenario_mapping : pydict pyval :=
  [(str "test_folder/a.txt",
    PyStr (str "2cf24dba5fb0a30e26e83b2ac5b9e29e1b161e5c1fa7425e73043362938b9824"))].

(** The store before the first pass, the store a first pass leaves, and
    stores whose state file is damaged. *)
Definition first_run_store : store := Store None None.

Definition scenario_store : store :=
  Store (Some (Text (Json.dumps scenario_snapshot))) None.

Definition list_store : store := Store (Some (Text (text "[]"))) None.

Definition number_store : store := Store (Some (Text (text "{'a': 1}"))) None.

Definition garbled_store : store := Store (Some Undecodable) None.

(** The same world with a disk that is full: both writes fail, the second
    one after truncating the state file. *)
Definition full_disk_env : environment :=
  Environment (os_walk scenario_env) (read_bytes scenario_env)
    false false WriteFailsAtOpen (WriteFailsAfter 3) false (fun _ _ => false).

(** The record of an earlier state of the folder, in which [b.txt] could
    still be read: the snapshot, the mapping [json.load] returns for it,
    and the store that holds it. *)
Definition stale_snapshot : pydict pystr :=
  scenario_snapshot ++
  [(str "test_folder/b.txt",
    str "2d711642b726b04401627ca9fbac32f5c8530fb1903cc4db02258717921a4881")].

Definition stale_mapping : pydict pyval :=
  List.map (fun kv => (fst kv, PyStr (snd kv))) stale_snapshot.

Definition stale_store : store :=
  Store (Some (Text (Json.dumps stale_snapshot))) None.

(** A store whose state file was cut by a write that failed. *)
Definition truncated_store : store :=
  Store (Some (Text (take 20 (Json.dumps scenario_snapshot)))) None.

(** The same world with a state file that cannot be opened for writing. *)
Definition read_only_env : environment :=
  Environment (os_walk scenario_env) (read_bytes scenario_env)
    false false WriteOk WriteFailsAtOpen false (fun _ _ => false).

(** The same world with a mail account, where the SMTP exchange fails for
    the alerts of deleted files. *)
Definition mail_env : environment :=
  Environment (os_walk scenario_env) (read_bytes scenario_env)
    false false WriteOk WriteOk true (fun _ c => bool_decide (c = Deleted)).

(* ===================================================================== *)
(** * Proofs *)
(* ===================================================================== *)

(* ===================================================================== *)
(** ** The models of the libraries, on examples *)
(* ===================================================================== *)

Example sha256_constants :
  length Sha256.K = 64%nat /\
  nth 0 Sha256.K 0%Z = 0x428a2f98%Z /\ nth 63 Sha256.K 0%Z = 0xc67178f2%Z /\
  Sha256.ha Sha256.init = 0x6a09e667%Z /\ Sha256.hh Sha256.init = 0x5be0cd19%Z.
Proof. vm_compute. repeat split. Qed.

Example sha256_empty :
  Sha256.hexdigest (bytes "") =
  str "e3b0c44298fc1c149afbf4c8996fb92427ae41e4649b934ca495991b7852b855".
Proof. vm_compute. reflexivity. Qed.

Example sha256_abc :
  Sha256.hexdigest (bytes "abc") =
  str "ba7816bf8f01cfea414140de5dae2223b00361a396177a9cb410ff61f20015ad".
Proof. vm_compute. reflexivity. Qed.

Example sha256_two_blocks :
  Sha256.hexdigest (repeat "a"%byte 100) =
  str "2816597888e4a0d3a36b82b83316ab32680eb8f00f8cd3b904d681246d285a0e".
Proof. vm_compute. reflexivity. Qed.

Example loads_examples :
  Json.loads (text "[]") = Some (PyList []) /\
  Json.loads (text " {'a': 1, 'b': [true, null, -2.5e3, 'x\n/'], 'a': {}} ") =
    Some (PyDict [(str "a", PyDict []);
                  (str "b", PyList [PyBool true; PyNone; PyFloat (str "-2.5e3");
                                    PyStr [120; 10; 47]])]) /\
  Json.loads (text "{'a': 1,}") = None /\
  Json.loads (text "01") = None /\
  Json.loads (text "{") = None /\
  Json.loads (text "") = None /\
  Json.loads (text "'" ++ 92 :: str "ud83d" ++ 92 :: str "uDE00" ++ text "'") =
    Some (PyStr [0x1f600]).
Proof. vm_compute. repeat split. Qed.

Example dumps_example :
  Json.dumps [(str "t/a.txt", str "ab"); ([0x1f600; 233; 34; 92; 10], str "")] =
  text "{
    't/a.txt': 'ab',
    '" ++ 92 :: str "ud83d" ++ 92 :: str "ude00" ++ 92 :: str "u00e9" ++ text "\'\\\n': ''
}".
Proof. vm_compute. reflexivity. Qed.

Example first_pass :
  run (check_folder default_config scenario_env) first_run_store =
  (Ok (Locals (PyDict []) true 1 scenario_snapshot),
   State scenario_store
     [Print (NewFileDetected (str "test_folder/a.txt"));
      Log INFO (NewFileDetected (str "test_folder/a.txt"));
      Log WARNING EmailCredentialsNotSet;
      Log ERROR (ErrorHashing (str "test_folder/b.txt") OSError);
      OpenWrite HASH_FILE;
      Log INFO (Monitoring 1); Print (Monitoring 1)]).
Proof. vm_compute. reflexivity. Qed.

(* ===================================================================== *)
(** ** The round trip of [json.dump] and [json.load] *)
(* ===================================================================== *)

Lemma testbit_small (b i : N) : b < 2 ^ i -> N.testbit b i = false.
Proof.
  intros Hb. destruct (N.eq_dec b 0) as [->|Hnz].
  - apply N.bits_0.
  - apply N.bits_above_log2. apply N.log2_lt_pow2; lia.
Qed.

Lemma lor_disjoint (q b k : N) : b < 2 ^ k -> N.lor (q * 2 ^ k) b = q * 2 ^ k + b.
Proof.
  intros Hb.
  assert (Hland : N.land (q * 2 ^ k) b = 0).
  { apply N.bits_inj. intros i. rewrite N.land_spec, N.bits_0.
    destruct (N.lt_ge_cases i k) as [Hi|Hi].
    - rewrite N.mul_pow2_bits_low by assumption. reflexivity.
    - rewrite (testbit_small b i), andb_false_r; [reflexivity|].
      eapply N.lt_le_trans; [exact Hb|]. apply N.pow_le_mono_r; lia. }
  rewrite N.add_nocarry_lxor by assumption.
  symmetry. apply N.lxor_lor. assumption.
Qed.

Lemma hexval_hexchar (d : N) : d < 16 -> hexval (hexchar d) = Some d.
Proof.
  intros Hd. unfold hexchar, hexval.
  destruct (N.ltb_spec d 10).
  - replace ((48 <=? 48 + d) && (48 + d <=? 57)) with true.
    + f_equal. lia.
    + symmetry. apply andb_true_iff. split; apply N.leb_le; lia.
  - replace ((48 <=? 87 + d) && (87 + d <=? 57)) with false.
    + replace ((97 <=? 87 + d) && (87 + d <=? 102)) with true.
      * f_equal. lia.
      * symmetry. apply andb_true_iff. split; apply N.leb_le; lia.
    + symmetry. apply andb_false_iff. right. apply N.leb_gt. lia.
Qed.

Lemma hex_digits_4 (n : N) :
  hex_digits 4 n =
  [hexchar (n / 16 / 16 / 16 mod 16); hexchar (n / 16 / 16 mod 16);
   hexchar (n / 16 mod 16); hexchar (n mod 16)].
Proof. reflexivity. Qed.

Lemma hex4_hex_digits (n : N) :
  n < 65536 ->
  Json.hex4 (hexchar (n / 16 / 16 / 16 mod 16)) (hexchar (n / 16 / 16 mod 16))
            (hexchar (n / 16 mod 16)) (hexchar (n mod 16)) = Some n.
Proof.
  intros Hn. unfold Json.hex4.
  rewrite !hexval_hexchar by (apply N.mod_lt; lia).
  f_equal.
  pose proof (N.div_mod n 16). pose proof (N.div_mod (n / 16) 16).
  pose proof (N.div_mod (n / 16 / 16) 16). pose proof (N.div_mod (n / 16 / 16 / 16) 16).
  assert (n / 16 / 16 / 16 / 16 = 0).
  { rewrite !N.Div0.div_div. apply N.div_small. exact Hn. }
  lia.
Qed.

Lemma scanstring_plain (c : N) (r : pystr) :
  c <> 34 -> c <> 92 -> 32 <= c ->
  Json.scanstring (c :: r) = Json.cons_result c (Json.scanstring r).
Proof.
  intros H1 H2 H3. simpl.
  destruct (N.eqb_spec c 34); [contradiction|].
  destruct (N.eqb_spec c 92); [contradiction|].
  destruct (N.ltb_spec c 32); [lia|]. reflexivity.
Qed.

Lemma scanstring_u (h1 h2 h3 h4 u : N) (r : pystr) :
  Json.hex4 h1 h2 h3 h4 = Some u -> Json.is_high_surrogate u = false ->
  Json.scanstring (92 :: 117 :: h1 :: h2 :: h3 :: h4 :: r) =
  Json.cons_result u (Json.scanstring r).
Proof.
  intros Hh Hs. cbn [Json.scanstring N.eqb Pos.eqb]. rewrite Hh, Hs. reflexivity.
Qed.

Lemma scanstring_pair (h1 h2 h3 h4 g1 g2 g3 g4 u u2 : N) (r : pystr) :
  Json.hex4 h1 h2 h3 h4 = Some u -> Json.is_high_surrogate u = true ->
  Json.hex4 g1 g2 g3 g4 = Some u2 -> Json.is_low_surrogate u2 = true ->
  Json.scanstring (92 :: 117 :: h1 :: h2 :: h3 :: h4 :: 92 :: 117 :: g1 :: g2 :: g3 :: g4 :: r) =
  Json.cons_result (Json.join_surrogates u u2) (Json.scanstring r).
Proof.
  intros Hh Hs Hg Hl. cbn [Json.scanstring N.eqb Pos.eqb andb]. rewrite Hh, Hs, Hg, Hl. reflexivity.
Qed.

Lemma surrogate_pair (c : N) :
  0x10000 <= c -> c < 0x110000 ->
  let n := c - 0x10000 in
  let s1 := N.lor 0xd800 (N.land (N.shiftr n 10) 0x3ff) in
  let s2 := N.lor 0xdc00 (N.land n 0x3ff) in
  s1 < 65536 /\ s2 < 65536 /\
  Json.is_high_surrogate s1 = true /\ Json.is_low_surrogate s2 = true /\
  Json.join_surrogates s1 s2 = c.
Proof.
  intros Hlo Hhi n s1 s2.
  assert (Hn : n < 0x100000) by (unfold n; lia).
  assert (Ha : N.land (N.shiftr n 10) 0x3ff = n / 1024).
  { change 0x3ff with (N.ones 10). rewrite N.land_ones, N.shiftr_div_pow2.
    change (2 ^ 10) with 1024. apply N.mod_small.
    apply N.Div0.div_lt_upper_bound. lia. }
  assert (Hb : N.land n 0x3ff = n mod 1024).
  { change 0x3ff with (N.ones 10). rewrite N.land_ones. reflexivity. }
  assert (Hq : n / 1024 < 1024) by (apply N.Div0.div_lt_upper_bound; lia).
  assert (Hr : n mod 1024 < 1024) by (apply N.mod_lt; lia).
  assert (H1 : s1 = 0xd800 + n / 1024).
  { unfold s1. rewrite Ha. change 0xd800 with (54 * 2 ^ 10). apply lor_disjoint.
    exact Hq. }
  assert (H2 : s2 = 0xdc00 + n mod 1024).
  { unfold s2. rewrite Hb. change 0xdc00 with (55 * 2 ^ 10). apply lor_disjoint.
    exact Hr. }
  repeat split.
  - lia.
  - lia.
  - unfold Json.is_high_surrogate. apply andb_true_iff. split; apply N.leb_le; lia.
  - unfold Json.is_low_surrogate. apply andb_true_iff. split; apply N.leb_le; lia.
  - unfold Json.join_surrogates. rewrite H1, H2.
    replace (55296 + n / 1024 - 55296) with (n / 1024) by lia.
    replace (56320 + n mod 1024 - 56320) with (n mod 1024) by lia.
    rewrite N.shiftl_mul_pow2, lor_disjoint by exact Hr.
    change (2 ^ 10) with 1024. pose proof (N.div_mod n 1024). unfold n in *. lia.
Qed.

Lemma scanstring_escape_char (c : N) (r : pystr) :
  text_char c = true ->
  Json.scanstring (Json.escape_char c ++ r) = Json.cons_result c (Json.scanstring r).
Proof.
  intros Hc. unfold text_char in Hc. apply andb_true_iff in Hc as [Hlt Hns].
  apply N.ltb_lt in Hlt. apply negb_true_iff in Hns.
  unfold Json.escape_char.
  destruct (N.eqb_spec c 34) as [->|n34]; [reflexivity|].
  destruct (N.eqb_spec c 92) as [->|n92]; [reflexivity|].
  destruct (N.eqb_spec c 10) as [->|n10]; [reflexivity|].
  destruct (N.eqb_spec c 13) as [->|n13]; [reflexivity|].
  destruct (N.eqb_spec c 9) as [->|n9]; [reflexivity|].
  destruct (N.eqb_spec c 8) as [->|n8]; [reflexivity|].
  destruct (N.eqb_spec c 12) as [->|n12]; [reflexivity|].
  destruct ((32 <=? c) && (c <=? 126)) eqn:Hp.
  - apply andb_true_iff in Hp as [Hp _]. apply N.leb_le in Hp.
    apply scanstring_plain; assumption.
  - destruct (N.ltb_spec c 0x10000) as [Hs|Hs].
    + rewrite hex_digits_4. apply scanstring_u; [|exact Hns].
      apply hex4_hex_digits. exact Hs.
    + destruct (surrogate_pair c Hs Hlt) as (B1 & B2 & Hh & Hl & Hj).
      cbv zeta.
      set (s1 := N.lor 55296 _) in *. set (s2 := N.lor 56320 _) in *.
      rewrite !hex_digits_4. clearbody s1 s2. subst c.
      apply scanstring_pair; try assumption; apply hex4_hex_digits; assumption.
Qed.

Lemma scanstring_escape (s r : pystr) :
  wf_text s ->
  Json.scanstring (concat (List.map Json.escape_char s) ++ 34 :: r) = Some (s, r).
Proof.
  unfold wf_text. induction s as [|c s IH]; intros Hs.
  - reflexivity.
  - simpl in Hs. apply andb_true_iff in Hs as [Hc Hs].
    cbn [List.map concat]. rewrite <- app_assoc, scanstring_escape_char by exact Hc.
    rewrite IH by exact Hs. reflexivity.
Qed.

Lemma dump_item_shape (kv : pystr * pystr) (R : pystr) :
  Json.dump_item kv ++ R =
  34 :: concat (List.map Json.escape_char (fst kv)) ++
  34 :: 58 :: 32 :: 34 :: concat (List.map Json.escape_char (snd kv)) ++ 34 :: R.
Proof.
  unfold Json.dump_item, Json.encode_str, Json.quote.
  change (str ": ") with [58; 32].
  cbn [app]. rewrite <- !app_assoc. cbn [app]. rewrite <- !app_assoc. reflexivity.
Qed.

Lemma scan_once_string (fuel : nat) (s R : pystr) :
  wf_text s ->
  Json.scan_once (S fuel) (34 :: concat (List.map Json.escape_char s) ++ 34 :: R) =
  Some (PyStr s, R).
Proof.
  intros Hs. simpl. rewrite scanstring_escape by exact Hs. reflexivity.
Qed.

Lemma parse_members_item (fuel : nat) (kv : pystr * pystr) (R : pystr) (acc : pydict pyval) :
  wf_text (fst kv) -> wf_text (snd kv) ->
  Json.parse_members (S (S fuel)) (Json.dump_item kv ++ R) acc =
  match Json.skip_ws R with
  | c5 :: s5 =>
    if c5 =? 125 then Some (dict_set acc (fst kv) (PyStr (snd kv)), s5)
    else if c5 =? 44
    then Json.parse_members (S fuel) (Json.skip_ws s5) (dict_set acc (fst kv) (PyStr (snd kv)))
    else None
  | [] => None
  end.
Proof.
  intros Hk Hv. rewrite dump_item_shape.
  cbn [Json.parse_members N.eqb Pos.eqb].
  rewrite scanstring_escape by exact Hk.
  cbn [Json.skip_ws Json.is_ws N.eqb Pos.eqb orb].
  rewrite scan_once_string by exact Hv.
  reflexivity.
Qed.

Lemma skip_ws_dump_item (kv : pystr * pystr) (R : pystr) :
  Json.skip_ws (Json.newline_indent ++ Json.dump_item kv ++ R) = Json.dump_item kv ++ R.
Proof. rewrite dump_item_shape. reflexivity. Qed.

Lemma parse_members_dumps (rest : pydict pystr) :
  forall (kv : pystr * pystr) (acc : pydict pyval) (fuel : nat) (tail : pystr),
    Forall (fun kv => wf_text (fst kv) /\ wf_text (snd kv)) (kv :: rest) ->
    (length rest + 2 <= fuel)%nat ->
    Json.parse_members fuel (Json.dump_item kv ++ more_items rest ++ 10 :: 125 :: tail) acc =
    Some (fold_left add_item (kv :: rest) acc, tail).
Proof.
  induction rest as [|kv' rest IH]; intros kv acc fuel tail Hwf Hfuel.
  - destruct fuel as [|[|fuel]]; [simpl in Hfuel; lia..|].
    apply Forall_cons in Hwf as [[Hk Hv] _].
    rewrite parse_members_item by assumption. reflexivity.
  - destruct fuel as [|[|fuel]]; [simpl in Hfuel; lia..|].
    apply Forall_cons in Hwf as [[Hk Hv] Hwf].
    rewrite parse_members_item by assumption.
    unfold more_items. cbn [List.map concat].
    change (str ",") with [44]. cbn [app Json.skip_ws Json.is_ws N.eqb Pos.eqb orb].
    rewrite <- !app_assoc.
    rewrite skip_ws_dump_item.
    apply (IH kv' (dict_set acc (fst kv) (PyStr (snd kv))) (S fuel) tail Hwf).
    simpl in Hfuel |- *. lia.
Qed.

Lemma dict_set_fresh {V} (d : pydict V) (k : pystr) (v : V) :
  k ∉ dict_keys d -> dict_set d k v = d ++ [(k, v)].
Proof.
  induction d as [|[k' v'] d IH]; intros Hk.
  - reflexivity.
  - cbn [dict_set]. unfold dict_keys in Hk. cbn [List.map fst] in Hk.
    apply not_elem_of_cons in Hk as [Hne Hk].
    rewrite bool_decide_eq_false_2 by congruence.
    cbn [app]. f_equal. apply IH. exact Hk.
Qed.

Lemma dict_keys_app {V} (d1 d2 : pydict V) :
  dict_keys (d1 ++ d2) = dict_keys d1 ++ dict_keys d2.
Proof. unfold dict_keys. apply map_app. Qed.

Lemma fold_add_item (items : pydict pystr) :
  forall acc : pydict pyval,
    NoDup (dict_keys acc ++ dict_keys items) ->
    fold_left add_item items acc =
    acc ++ List.map (fun kv => (fst kv, PyStr (snd kv))) items.
Proof.
  induction items as [|[k v] items IH]; intros acc Hnd.
  - cbn. rewrite app_nil_r. reflexivity.
  - cbn [fold_left List.map]. unfold add_item at 2. cbn [fst snd].
    unfold dict_keys in Hnd. cbn [List.map fst] in Hnd.
    assert (Hk : k ∉ dict_keys acc).
    { apply NoDup_app in Hnd as (_ & Hd & _). intros Hin.
      apply (Hd k Hin). left. }
    rewrite dict_set_fresh by exact Hk.
    rewrite IH.
    + rewrite <- app_assoc. reflexivity.
    + rewrite dict_keys_app. cbn. rewrite <- app_assoc. exact Hnd.
Qed.

Lemma more_items_length (rest : pydict pystr) :
  (length rest <= length (more_items rest))%nat.
Proof.
  induction rest as [|kv rest IH]; [reflexivity|].
  unfold more_items. cbn [List.map concat]. fold (more_items rest).
  rewrite !length_app. change (length (str ",")) with 1%nat. cbn [length]. lia.
Qed.

(** [json.load] reads back what [json.dump] wrote for a well-formed
    snapshot. *)
Lemma loads_dumps (S : pydict pystr) :
  wf_snapshot S -> Json.loads (Json.dumps S) = Some (dict_value S).
Proof.
  intros [Hnd Hwf]. destruct S as [|kv rest]; [reflexivity|].
  unfold Json.dumps. fold (more_items rest).
  change (str "{") with [123]. change (10 :: str "}") with [10; 125].
  cbn [app]. unfold Json.loads.
  set (fuel := length _).
  assert (Hfuel : (length rest + 2 <= fuel)%nat).
  { unfold fuel. cbn [length]. rewrite !length_app.
    pose proof (more_items_length rest). cbn [length]. lia. }
  clearbody fuel.
  cbn [startswith N.eqb Pos.eqb andb].
  cbn [Json.skip_ws Json.is_ws N.eqb Pos.eqb orb].
  cbn [Json.scan_once N.eqb Pos.eqb].
  rewrite skip_ws_dump_item.
  rewrite (dump_item_shape kv). cbn [N.eqb Pos.eqb].
  rewrite <- (dump_item_shape kv).
  rewrite parse_members_dumps by assumption.
  cbn [Json.skip_ws]. f_equal.
  unfold dict_value. f_equal.
  rewrite fold_add_item; [reflexivity|]. exact Hnd.
Qed.

(* ===================================================================== *)
(** ** The runs of the functions of the module *)
(* ===================================================================== *)

Lemma hex_digits_length (k : nat) (n : N) : length (hex_digits k n) = k.
Proof.
  revert n. induction k as [|k IH]; intros n; [reflexivity|].
  cbn [hex_digits]. rewrite length_app, IH. cbn. lia.
Qed.

Lemma hexdigest_length (data : list byte) : length (Sha256.hexdigest data) = 64%nat.
Proof.
  unfold Sha256.hexdigest, Sha256.hex8. cbv zeta.
  rewrite !length_app, !hex_digits_length. reflexivity.
Qed.

Lemma hexdigest_nonempty (data : list byte) : Sha256.hexdigest data <> [].
Proof.
  intros H. pose proof (hexdigest_length data) as HL. rewrite H in HL. discriminate.
Qed.

Lemma send_email_alert_run (env : environment) (p : pystr) (c : change_type) (st : state) :
  send_email_alert env p c st =
  (Ok tt, State (files st) (trace st ++ email_events env p c)).
Proof.
  unfold send_email_alert, email_events.
  destruct (email_configured env); cbn [negb]; [|reflexivity].
  run_monad. destruct (smtp_fails env p c); cbn [files trace].
  - reflexivity.
  - rewrite <- ?app_assoc. reflexivity.
Qed.

Lemma calculate_file_hash_run (env : environment) (p : pystr) (st : state) :
  calculate_file_hash env p st =
  match digest_of env p with
  | Some h => (Ok (Some h), st)
  | None => (Ok None, State (files st) (trace st ++ [Log ERROR (ErrorHashing p OSError)]))
  end.
Proof.
  unfold calculate_file_hash, digest_of. run_monad.
  destruct (read_bytes env p); reflexivity.
Qed.

Lemma digest_of_nonempty (env : environment) (p h : pystr) :
  digest_of env p = Some h -> h <> [].
Proof.
  unfold digest_of. destruct (read_bytes env p); [|discriminate].
  intros [= <-]. apply hexdigest_nonempty.
Qed.

Lemma dict_mem_get {V} (d : pydict V) (k : pystr) :
  dict_mem d k = bool_decide (is_Some (dict_get d k)).
Proof.
  unfold dict_mem, dict_keys. induction d as [|[k' v'] d IH].
  - reflexivity.
  - cbn [List.map fst dict_get].
    destruct (decide (k' = k)) as [->|Hne].
    + rewrite (bool_decide_eq_true_2 (k = k)) by reflexivity.
      rewrite (bool_decide_eq_true_2 (k ∈ _)) by left.
      rewrite bool_decide_eq_true_2 by eauto. reflexivity.
    + rewrite (bool_decide_eq_false_2 (k' = k)) by exact Hne.
      rewrite <- IH. apply bool_decide_ext. rewrite elem_of_cons.
      split; [intros [->|H]; [congruence|exact H] | intros H; right; exact H].
Qed.

Lemma check_file_candidate (cfg : config) (env : environment) (d : pydict pyval)
    (root file : pystr) (l : locals) (st : state) :
  hashes l = PyDict d ->
  excluded_extension cfg file = false ->
  check_file cfg env root file l st =
  (Ok (visit_locals env d (path_join root file) l),
   State (files st) (trace st ++ visit_events env d (path_join root file))).
Proof.
  intros Hd Hx. unfold check_file. rewrite Hx.
  unfold visit_locals, visit_events.
  unfold mbind at 1, M_bind at 1, bind at 1.
  rewrite calculate_file_hash_run.
  destruct (digest_of env (path_join root file)) as [h|] eqn:Hh; [|reflexivity].
  rewrite bool_decide_eq_false_2 by (eapply digest_of_nonempty; eassumption).
  cbn [hashes record_file]. rewrite Hd. cbn [py_contains py_getitem].
  unfold classify. rewrite dict_mem_get.
  destruct (dict_get d (path_join root file)) as [v|] eqn:Hv.
  - rewrite bool_decide_eq_true_2 by eauto.
    unfold mbind at 1, M_bind at 1, bind at 1, ret at 1.
    unfold mbind at 1, M_bind at 1, bind at 1, ret at 1.
    destruct (py_ne_str v h).
    + run_monad. rewrite send_email_alert_run. cbn [files trace].
      unfold change_events. rewrite <- !app_assoc. destruct st; rewrite <- ?Hd; reflexivity.
    + run_monad. rewrite app_nil_r. destruct st; rewrite <- ?Hd; reflexivity.
  - rewrite bool_decide_eq_false_2 by (intros [? ?]; discriminate).
    run_monad. rewrite send_email_alert_run. cbn [files trace].
    unfold change_events. rewrite <- !app_assoc. destruct st; rewrite <- ?Hd; reflexivity.
Qed.

Lemma visit_locals_hashes (env : environment) (d : pydict pyval) (p : pystr) (l : locals) :
  hashes (visit_locals env d p l) = hashes l.
Proof.
  unfold visit_locals. destruct (digest_of env p); [|reflexivity].
  destruct (classify d p l0); reflexivity.
Qed.

Lemma scan_locals_hashes (env : environment) (d : pydict pyval) (ps : list pystr) :
  forall l, hashes (scan_locals env d ps l) = hashes l.
Proof.
  induction ps as [|p ps IH]; intros l; [reflexivity|].
  cbn. unfold scan_locals in IH. rewrite IH. apply visit_locals_hashes.
Qed.

Lemma scan_locals_app (env : environment) (d : pydict pyval) (ps qs : list pystr) (l : locals) :
  scan_locals env d (ps ++ qs) l = scan_locals env d qs (scan_locals env d ps l).
Proof. unfold scan_locals. apply fold_left_app. Qed.

Lemma scan_events_app (env : environment) (d : pydict pyval) (ps qs : list pystr) :
  scan_events env d (ps ++ qs) = scan_events env d ps ++ scan_events env d qs.
Proof. unfold scan_events. apply flat_map_app. Qed.

Lemma check_files_run (cfg : config) (env : environment) (d : pydict pyval) (root : pystr)
    (files' : list pystr) :
  forall (l : locals) (st : state),
    hashes l = PyDict d ->
    let ps := List.map (path_join root)
                (List.filter (fun file => negb (excluded_extension cfg file)) files') in
    for_each files' (check_file cfg env root) l st =
    (Ok (scan_locals env d ps l), State (files st) (trace st ++ scan_events env d ps)).
Proof.
  induction files' as [|file files' IH]; intros l st Hd; cbv zeta.
  - cbn. rewrite app_nil_r. destruct st; reflexivity.
  - cbn [for_each List.filter].
    unfold mbind at 1, M_bind at 1, bind at 1.
    destruct (excluded_extension cfg file) eqn:Hx; cbn [negb].
    + unfold check_file at 1. rewrite Hx. cbv [ret]. apply IH. exact Hd.
    + rewrite (check_file_candidate cfg env d) by assumption.
      rewrite IH by (rewrite visit_locals_hashes; exact Hd).
      cbn [files trace List.map]. rewrite <- app_assoc. reflexivity.
Qed.

Lemma check_directory_run (cfg : config) (env : environment) (d : pydict pyval)
    (entry : pystr * list pystr) (l : locals) (st : state) :
  hashes l = PyDict d ->
  check_directory cfg env entry l st =
  (Ok (scan_locals env d (directory_candidates cfg entry) l),
   State (files st) (trace st ++ scan_events env d (directory_candidates cfg entry))).
Proof.
  intros Hd. unfold check_directory, directory_candidates.
  destruct (excluded_directory cfg (fst entry)).
  - cbn. rewrite app_nil_r. destruct st; reflexivity.
  - apply check_files_run. exact Hd.
Qed.

Lemma walk_run (cfg : config) (env : environment) (d : pydict pyval)
    (entries : list (pystr * list pystr)) :
  forall (l : locals) (st : state),
    hashes l = PyDict d ->
    let ps := flat_map (directory_candidates cfg) entries in
    for_each entries (check_directory cfg env) l st =
    (Ok (scan_locals env d ps l), State (files st) (trace st ++ scan_events env d ps)).
Proof.
  induction entries as [|entry entries IH]; intros l st Hd; cbv zeta.
  - cbn. rewrite app_nil_r. destruct st; reflexivity.
  - cbn [for_each flat_map].
    unfold mbind at 1, M_bind at 1, bind at 1.
    rewrite (check_directory_run cfg env d) by exact Hd.
    rewrite IH by (rewrite scan_locals_hashes; exact Hd).
    cbn [files trace]. rewrite scan_locals_app, scan_events_app, <- app_assoc.
    reflexivity.
Qed.

Lemma report_deleted_run (env : environment) (dels : list pystr) :
  forall (l : locals) (st : state),
    for_each dels (report_deleted env) l st =
    (Ok (after_deleted dels l), State (files st) (trace st ++ deleted_events env dels)).
Proof.
  induction dels as [|p dels IH]; intros l st.
  - cbn. rewrite app_nil_r. destruct st; reflexivity.
  - cbn [for_each]. unfold mbind at 1, M_bind at 1, bind at 1.
    unfold report_deleted at 1. run_monad. rewrite send_email_alert_run.
    cbn [files trace]. rewrite IH. cbn [files trace after_deleted deleted_events flat_map].
    unfold change_events. rewrite <- !app_assoc. cbn [app].
    destruct dels; reflexivity.
Qed.

Lemma load_hashes_run (env : environment) (st : state) :
  load_hashes env st =
  (fst (load_outcome env (files st)),
   State (files st) (trace st ++ snd (load_outcome env (files st)))).
Proof.
  unfold load_hashes, load_outcome, exists_file, read_text. run_monad.
  destruct st as [[hf bf] t]. cbn [get_file hash_file].
  destruct hf as [data|]; cbn.
  - destruct (load_open_fails env); cbn; [rewrite app_nil_r; reflexivity|].
    destruct data as [s|]; cbn; [|rewrite app_nil_r; reflexivity].
    destruct (Json.loads s); cbn; [rewrite app_nil_r|]; reflexivity.
  - rewrite app_nil_r. reflexivity.
Qed.

Lemma backup_hashes_run (env : environment) (st : state) :
  backup_hashes env st =
  (Ok tt, State (fst (backup_outcome env (files st)))
                (trace st ++ snd (backup_outcome env (files st)))).
Proof.
  unfold backup_hashes, backup_outcome, exists_file, read_text, write_text, written.
  run_monad. destruct st as [[hf bf] t]. cbn [get_file hash_file].
  destruct hf as [data|]; cbn; [|rewrite app_nil_r; reflexivity].
  destruct (backup_open_fails env); cbn; [reflexivity|].
  destruct data as [s|]; cbn; [|reflexivity].
  destruct (backup_write env); cbn; rewrite <- ?app_assoc; reflexivity.
Qed.

Lemma save_hashes_run (env : environment) (new : pydict pystr) (st : state) :
  save_hashes env new st =
  (Ok tt, State (fst (save_outcome env new (files st)))
                (trace st ++ snd (save_outcome env new (files st)))).
Proof.
  unfold save_hashes. unfold try_except, mbind, M_bind, bind.
  rewrite backup_hashes_run. unfold save_outcome, write_text, written.
  destruct (backup_outcome env (files st)) as [fs1 t1]. run_monad.
  cbn [fst snd].
  destruct (hash_write env); cbn; rewrite <- ?app_assoc; reflexivity.
Qed.

(* ===================================================================== *)
(** ** Dictionaries and the snapshot of a pass *)
(* ===================================================================== *)

Lemma dict_get_set {V} (d : pydict V) (k k' : pystr) (v : V) :
  dict_get (dict_set d k v) k' = if decide (k = k') then Some v else dict_get d k'.
Proof.
  induction d as [|[k0 v0] d IH]; cbn [dict_set dict_get].
  - destruct (decide (k = k')) as [->|Hne].
    + rewrite bool_decide_eq_true_2 by reflexivity. reflexivity.
    + rewrite bool_decide_eq_false_2 by exact Hne. reflexivity.
  - destruct (decide (k0 = k)) as [->|Hk0].
    + rewrite (bool_decide_eq_true_2 (k = k)) by reflexivity. cbn [dict_get].
      destruct (decide (k = k')) as [->|Hne].
      * rewrite bool_decide_eq_true_2 by reflexivity. reflexivity.
      * rewrite bool_decide_eq_false_2 by exact Hne. reflexivity.
    + rewrite (bool_decide_eq_false_2 (k0 = k)) by exact Hk0. cbn [dict_get].
      rewrite IH. destruct (decide (k0 = k')) as [->|Hne].
      * rewrite bool_decide_eq_true_2 by reflexivity.
        destruct (decide (k = k')); [congruence|reflexivity].
      * rewrite bool_decide_eq_false_2 by exact Hne. reflexivity.
Qed.

Lemma elem_of_dict_keys {V} (d : pydict V) (k : pystr) :
  k ∈ dict_keys d <-> is_Some (dict_get d k).
Proof.
  pose proof (dict_mem_get d k) as H. unfold dict_mem in H.
  rewrite <- (bool_decide_eq_true (k ∈ dict_keys d)), H, bool_decide_eq_true.
  reflexivity.
Qed.

Lemma dict_keys_set {V} (d : pydict V) (k k' : pystr) (v : V) :
  k' ∈ dict_keys (dict_set d k v) <-> k' = k \/ k' ∈ dict_keys d.
Proof.
  rewrite !elem_of_dict_keys, dict_get_set.
  destruct (decide (k = k')) as [->|Hne].
  - split; [left; reflexivity|eauto].
  - split; [right; assumption|intros [->|H]; [contradiction|exact H]].
Qed.

Lemma dict_set_NoDup {V} (d : pydict V) (k : pystr) (v : V) :
  NoDup (dict_keys d) -> NoDup (dict_keys (dict_set d k v)).
Proof.
  unfold dict_keys. induction d as [|[k0 v0] d IH]; intros Hnd; cbn [dict_set].
  - cbn. apply NoDup_singleton.
  - cbn [List.map fst] in Hnd. apply NoDup_cons in Hnd as [Hk0 Hnd].
    destruct (decide (k0 = k)) as [->|Hne].
    + rewrite bool_decide_eq_true_2 by reflexivity. cbn [List.map fst].
      apply NoDup_cons. split; assumption.
    + rewrite bool_decide_eq_false_2 by exact Hne. cbn [List.map fst].
      apply NoDup_cons. split; [|apply IH; exact Hnd].
      intros Hin. apply (dict_keys_set d k k0 v) in Hin as [?|Hin]; [congruence|].
      apply Hk0. exact Hin.
Qed.

Lemma scan_locals_current_files (env : environment) (d : pydict pyval) (ps : list pystr) :
  forall l, current_files (scan_locals env d ps l) = snapshot_of env ps (current_files l).
Proof.
  unfold scan_locals, snapshot_of.
  induction ps as [|p ps IH]; intros l; [reflexivity|].
  cbn [fold_left]. rewrite IH. f_equal. unfold visit_locals.
  destruct (digest_of env p) as [h|]; [|reflexivity].
  destruct (classify d p h); reflexivity.
Qed.

Lemma scan_locals_changes_detected (env : environment) (d : pydict pyval) (ps : list pystr) :
  forall l, changes_detected (scan_locals env d ps l) =
            changes_detected l || existsb (changed env d) ps.
Proof.
  unfold scan_locals.
  induction ps as [|p ps IH]; intros l; [cbn; rewrite orb_false_r; reflexivity|].
  cbn [fold_left existsb]. rewrite IH. unfold visit_locals, changed.
  destruct (digest_of env p) as [h|]; [|reflexivity].
  destruct (classify d p h) as [c|]; cbn.
  - rewrite orb_true_r. reflexivity.
  - reflexivity.
Qed.

Lemma snapshot_of_get (env : environment) (ps : list pystr) (p : pystr) :
  forall cf,
    dict_get (snapshot_of env ps cf) p =
    match digest_of env p with
    | Some h => if bool_decide (p ∈ ps) then Some h else dict_get cf p
    | None => dict_get cf p
    end.
Proof.
  unfold snapshot_of.
  induction ps as [|q ps IH]; intros cf.
  - cbn. destruct (digest_of env p); reflexivity.
  - cbn [fold_left]. rewrite IH.
    destruct (digest_of env p) as [h|] eqn:Hp.
    + destruct (decide (p ∈ ps)) as [Hin|Hnin].
      * rewrite !bool_decide_eq_true_2; [reflexivity|right; exact Hin|exact Hin].
      * rewrite (bool_decide_eq_false_2 (p ∈ ps)) by exact Hnin.
        destruct (decide (q = p)) as [->|Hne].
        -- rewrite Hp, dict_get_set. rewrite decide_True by reflexivity.
           rewrite bool_decide_eq_true_2 by left. reflexivity.
        -- rewrite (bool_decide_eq_false_2 (p ∈ q :: ps)).
           ++ destruct (digest_of env q); [|reflexivity].
              rewrite dict_get_set, decide_False by exact Hne. reflexivity.
           ++ rewrite elem_of_cons. intros [?|?]; [congruence|contradiction].
    + destruct (digest_of env q) as [h|] eqn:Hq; [|reflexivity].
      rewrite dict_get_set. destruct (decide (q = p)); [congruence|reflexivity].
Qed.

Lemma snapshot_of_NoDup (env : environment) (ps : list pystr) :
  forall cf, NoDup (dict_keys cf) -> NoDup (dict_keys (snapshot_of env ps cf)).
Proof.
  unfold snapshot_of. induction ps as [|q ps IH]; intros cf Hnd; [exact Hnd|].
  cbn [fold_left]. apply IH. destruct (digest_of env q); [|exact Hnd].
  apply dict_set_NoDup. exact Hnd.
Qed.

Lemma snapshot_get (env : environment) (ps : list pystr) (p : pystr) :
  dict_get (snapshot_of env ps []) p =
  if bool_decide (p ∈ ps) then digest_of env p else None.
Proof.
  rewrite snapshot_of_get. cbn [dict_get].
  destruct (digest_of env p), (bool_decide (p ∈ ps)); reflexivity.
Qed.

Lemma after_deleted_current_files (dels : list pystr) (l : locals) :
  current_files (after_deleted dels l) = current_files l.
Proof. destruct dels; reflexivity. Qed.

Lemma check_folder_run (cfg : config) (env : environment) (d : pydict pyval) (fs : store)
    (t : list event) :
  fst (load_outcome env fs) = Ok (PyDict d) ->
  check_folder cfg env (State fs t) =
  (Ok (pass_locals cfg env d),
   State (fst (pass_save cfg env d fs)) (t ++ pass_events cfg env d fs)).
Proof.
  intros Hload. unfold check_folder.
  unfold mbind at 1, M_bind at 1, bind at 1.
  rewrite load_hashes_run. cbn [files trace]. rewrite Hload.
  unfold mbind at 1, M_bind at 1, bind at 1.
  rewrite (walk_run cfg env d) by reflexivity.
  fold (candidates cfg env). fold (scanned cfg env d). cbn [files trace].
  unfold mbind at 1, M_bind at 1, bind at 1. cbn [py_keys]. unfold ret at 1.
  unfold mbind at 1, M_bind at 1, bind at 1.
  fold (deleted_files d (current_files (scanned cfg env d))).
  rewrite report_deleted_run. fold (pass_locals cfg env d). cbn [files trace].
  unfold pass_events, pass_save. fold (saves d (pass_locals cfg env d)).
  destruct (saves d (pass_locals cfg env d)).
  - unfold mbind at 1, M_bind at 1, bind at 1. rewrite save_hashes_run.
    run_monad. cbn [fst snd]. rewrite <- !app_assoc. reflexivity.
  - run_monad. cbn [fst snd app]. rewrite <- !app_assoc. reflexivity.
Qed.

(* ===================================================================== *)
(** ** The changes a pass reports *)
(* ===================================================================== *)

Lemma elem_of_reported (c : change_type) (p : pystr) (t : list event) :
  p ∈ reported c t <-> change_log c p ∈ t.
Proof.
  unfold reported. rewrite elem_of_list_to_set, list_elem_of_omap.
  split.
  - intros (e & He & Hp).
    destruct e as [[] []| | |]; cbn in Hp; try discriminate;
      destruct c; cbn in Hp; try discriminate; injection Hp as <-; exact He.
  - intros He. exists (change_log c p). split; [exact He|].
    destruct c; cbn; reflexivity.
Qed.

Lemma change_log_email (env : environment) (c c' : change_type) (p q : pystr) :
  change_log c p ∉ email_events env q c'.
Proof.
  unfold email_events. intros H.
  destruct (email_configured env); cbn [negb] in H;
    [destruct (smtp_fails env q c')|];
    repeat (apply elem_of_cons in H as [H|H]; [destruct c; discriminate|]);
    apply elem_of_nil in H; exact H.
Qed.

Lemma change_log_change_events (env : environment) (c c' : change_type) (p q : pystr) :
  change_log c p ∈ change_events env q c' <-> c = c' /\ p = q.
Proof.
  unfold change_events. rewrite elem_of_app. split.
  - intros [H|H]; [|exfalso; eapply change_log_email; exact H].
    destruct c'; repeat (apply elem_of_cons in H as [H|H];
      [destruct c; try discriminate; injection H as ->; split; reflexivity|]);
      apply elem_of_nil in H; contradiction.
  - intros [-> ->]. left. destruct c'; cbn; right; left.
Qed.

Lemma change_log_scan_events (env : environment) (d : pydict pyval) (ps : list pystr)
    (c : change_type) (p : pystr) :
  change_log c p ∈ scan_events env d ps <->
  p ∈ ps /\ exists h, digest_of env p = Some h /\ classify d p h = Some c.
Proof.
  unfold scan_events. rewrite list_elem_of_In, in_flat_map. split.
  - intros (q & Hq & H). apply list_elem_of_In in Hq, H. unfold visit_events in H.
    destruct (digest_of env q) as [h|] eqn:Hh.
    + destruct (classify d q h) as [c'|] eqn:Hc; [|apply elem_of_nil in H; contradiction].
      apply change_log_change_events in H as [-> ->]. eauto.
    + apply elem_of_cons in H as [H|H]; [destruct c; discriminate|].
      apply elem_of_nil in H; contradiction.
  - intros (Hp & h & Hh & Hc). exists p. rewrite <- !list_elem_of_In. split; [exact Hp|].
    unfold visit_events. rewrite Hh, Hc. apply change_log_change_events. auto.
Qed.

Lemma change_log_deleted_events (env : environment) (dels : list pystr)
    (c : change_type) (p : pystr) :
  change_log c p ∈ deleted_events env dels <-> c = Deleted /\ p ∈ dels.
Proof.
  unfold deleted_events. rewrite list_elem_of_In, in_flat_map. split.
  - intros (q & Hq & H). apply list_elem_of_In in Hq, H.
    apply change_log_change_events in H as [-> ->]. auto.
  - intros [-> Hp]. exists p. rewrite <- !list_elem_of_In. split; [exact Hp|].
    apply change_log_change_events. auto.
Qed.

Lemma change_log_load (env : environment) (fs : store) (c : change_type) (p : pystr) :
  change_log c p ∉ snd (load_outcome env fs).
Proof.
  unfold load_outcome. intros H.
  destruct (hash_file fs) as [[s|]|]; cbn in H;
    destruct (load_open_fails env); cbn in H;
    try (apply elem_of_nil in H; contradiction).
  destruct (Json.loads s); cbn in H.
  - apply elem_of_nil in H; contradiction.
  - apply elem_of_cons in H as [H|H]; [destruct c; discriminate|].
    apply elem_of_nil in H; contradiction.
Qed.

Lemma change_log_save (env : environment) (new : pydict pystr) (fs : store)
    (c : change_type) (p : pystr) :
  change_log c p ∉ snd (save_outcome env new fs).
Proof.
  unfold save_outcome, backup_outcome. intros H.
  destruct (hash_file fs) as [[s|]|]; destruct (backup_open_fails env);
    destruct (backup_write env); destruct (hash_write env); cbn in H;
    no_such_event H; destruct c; discriminate.
Qed.

(** The changes a pass reports. *)
Lemma change_log_pass (cfg : config) (env : environment) (d : pydict pyval) (fs : store)
    (c : change_type) (p : pystr) :
  change_log c p ∈ pass_events cfg env d fs <->
  (p ∈ candidates cfg env /\ exists h, digest_of env p = Some h /\ classify d p h = Some c) \/
  (c = Deleted /\ p ∈ deleted_files d (current_files (scanned cfg env d))).
Proof.
  unfold pass_events. rewrite !elem_of_app.
  rewrite change_log_scan_events, change_log_deleted_events. split.
  - intros [H|[H|[H|[H|H]]]]; auto.
    + exfalso. eapply change_log_load; exact H.
    + exfalso. unfold pass_save in H. destruct (saves d (pass_locals cfg env d)).
      * eapply change_log_save; exact H.
      * apply elem_of_nil in H; contradiction.
    + exfalso. no_such_event H; destruct c; discriminate.
  - intros [H|H]; auto.
Qed.

Lemma loads_mapping_outcome (env : environment) (fs : store) (d : pydict pyval) :
  loads_mapping env fs d <-> fst (load_outcome env fs) = Ok (PyDict d).
Proof.
  unfold loads_mapping, run. rewrite load_hashes_run. reflexivity.
Qed.

Lemma check_folder_pass (cfg : config) (env : environment) (fs : store) (d : pydict pyval) :
  loads_mapping env fs d ->
  run (check_folder cfg env) fs =
  (Ok (pass_locals cfg env d),
   State (fst (pass_save cfg env d fs)) (pass_events cfg env d fs)).
Proof.
  intros H. apply loads_mapping_outcome in H. unfold run.
  rewrite (check_folder_run cfg env d) by exact H. reflexivity.
Qed.

Lemma pass_current_files (cfg : config) (env : environment) (d : pydict pyval) :
  current_files (pass_locals cfg env d) = snapshot_of env (candidates cfg env) [].
Proof.
  unfold pass_locals. rewrite after_deleted_current_files.
  unfold scanned. rewrite scan_locals_current_files. reflexivity.
Qed.

Lemma elem_of_keys {V} (d : pydict V) (p : pystr) :
  p ∈ keys d <-> is_Some (dict_get d p).
Proof. unfold keys. rewrite elem_of_list_to_set. apply elem_of_dict_keys. Qed.

Lemma elem_of_deleted_files (d : pydict pyval) (cur : pydict pystr) (p : pystr) :
  p ∈ deleted_files d cur <-> is_Some (dict_get d p) /\ dict_get cur p = None.
Proof.
  unfold deleted_files. rewrite list_elem_of_In, filter_In, <- list_elem_of_In.
  rewrite elem_of_remove_dups, elem_of_dict_keys, dict_mem_get, negb_true_iff.
  rewrite bool_decide_eq_false, <- eq_None_not_Some. reflexivity.
Qed.

Lemma snapshot_get_Some (env : environment) (ps : list pystr) (p h : pystr) :
  dict_get (snapshot_of env ps []) p = Some h <-> p ∈ ps /\ digest_of env p = Some h.
Proof.
  rewrite snapshot_get. destruct (decide (p ∈ ps)) as [Hin|Hnin].
  - rewrite bool_decide_eq_true_2 by exact Hin. tauto.
  - rewrite bool_decide_eq_false_2 by exact Hnin. split; [discriminate|tauto].
Qed.

(** The classes of a pass, read on the two mappings. *)
Lemma reported_pass (cfg : config) (env : environment) (d : pydict pyval) (fs : store)
    (c : change_type) (p : pystr) :
  let cur := current_files (pass_locals cfg env d) in
  p ∈ reported c (pass_events cfg env d fs) <->
  match c with
  | NewFileAdded => is_Some (dict_get cur p) /\ dict_get d p = None
  | Modified =>
    exists h v, dict_get cur p = Some h /\ dict_get d p = Some v /\ py_ne_str v h = true
  | Deleted => is_Some (dict_get d p) /\ dict_get cur p = None
  end.
Proof.
  cbv zeta. rewrite elem_of_reported, change_log_pass, elem_of_deleted_files.
  unfold scanned. rewrite scan_locals_current_files, pass_current_files. cbn [current_files].
  unfold classify. split.
  - intros [(Hp & h & Hh & Hc)|[-> H]]; [|exact H].
    assert (Hcur : dict_get (snapshot_of env (candidates cfg env) []) p = Some h)
      by (apply snapshot_get_Some; auto).
    destruct (dict_get d p) as [v|] eqn:Hv.
    + destruct (py_ne_str v h) eqn:Hne; [|discriminate].
      injection Hc as <-. eauto.
    + injection Hc as <-. eauto.
  - destruct c.
    + intros (h & v & Hcur & Hv & Hne). apply snapshot_get_Some in Hcur as [Hp Hh].
      left. split; [exact Hp|]. exists h. split; [exact Hh|]. rewrite Hv, Hne. reflexivity.
    + intros [[h Hcur] Hv]. apply snapshot_get_Some in Hcur as [Hp Hh].
      left. split; [exact Hp|]. exists h. split; [exact Hh|]. rewrite Hv. reflexivity.
    + intros H. right. auto.
Qed.

Lemma py_ne_str_false (v : pyval) (h : pystr) : py_ne_str v h = false <-> v = PyStr h.
Proof.
  destruct v; cbn; try (split; [discriminate|discriminate]).
  rewrite negb_false_iff, bool_decide_eq_true. split; [intros ->; reflexivity|].
  intros [= ->]. reflexivity.
Qed.

(* ===================================================================== *)
(** ** The classes of the diff (claims C5 and C8) *)
(* ===================================================================== *)



(* ===================================================================== *)
(** ** When the pass saves (claim C1) *)
(* ===================================================================== *)

Lemma open_write_email (env : environment) (f : file_name) (c : change_type) (q : pystr) :
  OpenWrite f ∉ email_events env q c.
Proof.
  unfold email_events. intros H.
  destruct (email_configured env); cbn [negb] in H;
    [destruct (smtp_fails env q c)|]; no_such_event H.
Qed.

Lemma open_write_change_events (env : environment) (f : file_name) (c : change_type)
    (q : pystr) :
  OpenWrite f ∉ change_events env q c.
Proof.
  unfold change_events. intros H. apply elem_of_app in H as [H|H].
  - destruct c; no_such_event H.
  - eapply open_write_email; exact H.
Qed.

Lemma open_write_scan_events (env : environment) (d : pydict pyval) (ps : list pystr)
    (f : file_name) :
  OpenWrite f ∉ scan_events env d ps.
Proof.
  unfold scan_events. rewrite list_elem_of_In, in_flat_map.
  intros (q & _ & H). apply list_elem_of_In in H. unfold visit_events in H.
  destruct (digest_of env q) as [h|]; [|no_such_event H].
  destruct (classify d q h); [|no_such_event H].
  eapply open_write_change_events; exact H.
Qed.

Lemma open_write_deleted_events (env : environment) (dels : list pystr) (f : file_name) :
  OpenWrite f ∉ deleted_events env dels.
Proof.
  unfold deleted_events. rewrite list_elem_of_In, in_flat_map.
  intros (q & _ & H). apply list_elem_of_In in H.
  eapply open_write_change_events; exact H.
Qed.

Lemma open_write_load (env : environment) (fs : store) (f : file_name) :
  OpenWrite f ∉ snd (load_outcome env fs).
Proof.
  unfold load_outcome. intros H.
  destruct (hash_file fs) as [[s|]|]; cbn in H;
    destruct (load_open_fails env); cbn in H; try (no_such_event H; fail).
  destruct (Json.loads s); cbn in H; no_such_event H.
Qed.

Lemma open_write_hash_save (env : environment) (new : pydict pystr) (fs : store) :
  OpenWrite HASH_FILE ∈ snd (save_outcome env new fs).
Proof.
  unfold save_outcome. destruct (backup_outcome env fs) as [fs1 t1]. cbn [snd].
  apply elem_of_app. right. left.
Qed.

(** The save is attempted exactly in the passes that save. *)
Lemma open_write_hash_pass (cfg : config) (env : environment) (d : pydict pyval) (fs : store) :
  OpenWrite HASH_FILE ∈ pass_events cfg env d fs <-> saves d (pass_locals cfg env d) = true.
Proof.
  unfold pass_events, pass_save. rewrite !elem_of_app. split.
  - intros [H|[H|[H|[H|H]]]].
    + exfalso. eapply open_write_load; exact H.
    + exfalso. eapply open_write_scan_events; exact H.
    + exfalso. eapply open_write_deleted_events; exact H.
    + destruct (saves d (pass_locals cfg env d)); [reflexivity|no_such_event H].
    + no_such_event H.
  - intros ->. right; right; right; left. apply open_write_hash_save.
Qed.

Lemma pass_changes_detected (cfg : config) (env : environment) (d : pydict pyval) :
  changes_detected (pass_locals cfg env d) = true <->
  (exists p, p ∈ candidates cfg env /\ changed env d p = true) \/
  (exists p, p ∈ deleted_files d (current_files (scanned cfg env d))).
Proof.
  unfold pass_locals.
  destruct (deleted_files d (current_files (scanned cfg env d))) as [|q dels] eqn:Hdel;
    cbn [after_deleted].
  - unfold scanned. rewrite scan_locals_changes_detected. cbn [changes_detected orb].
    rewrite existsb_exists. split.
    + intros (p & Hp & Hc). left. exists p. split; [apply list_elem_of_In; exact Hp|exact Hc].
    + intros [(p & Hp & Hc)|[p Hp]]; [|apply elem_of_nil in Hp; contradiction].
      exists p. split; [apply list_elem_of_In; exact Hp|exact Hc].
  - cbn. split; [intros _|reflexivity]. right. exists q. left.
Qed.

Lemma changed_classify (env : environment) (d : pydict pyval) (p : pystr) :
  changed env d p = true <-> exists h c, digest_of env p = Some h /\ classify d p h = Some c.
Proof.
  unfold changed. destruct (digest_of env p) as [h|].
  - rewrite bool_decide_eq_true. split.
    + intros [c Hc]. eauto.
    + intros (h' & c & [= <-] & Hc). eauto.
  - split; [discriminate|intros (h & c & Hh & _); discriminate].
Qed.

(** A pass reports a change exactly when it sets [changes_detected]. *)
Lemma pass_reports_change (cfg : config) (env : environment) (d : pydict pyval) (fs : store) :
  (exists c p, change_log c p ∈ pass_events cfg env d fs) <->
  changes_detected (pass_locals cfg env d) = true.
Proof.
  rewrite pass_changes_detected. split.
  - intros (c & p & H). apply change_log_pass in H as [(Hp & h & Hh & Hc)|[_ Hp]].
    + left. exists p. split; [exact Hp|]. apply changed_classify. eauto.
    + right. eauto.
  - intros [(p & Hp & Hc)|[p Hp]].
    + apply changed_classify in Hc as (h & c & Hh & Hc). exists c, p.
      apply change_log_pass. left. eauto.
    + exists Deleted, p. apply change_log_pass. right. auto.
Qed.

(** Without a detected change the two key views are equal: the second
    test of line 157 never decides. *)
Lemma no_change_keys_eq (cfg : config) (env : environment) (d : pydict pyval) :
  changes_detected (pass_locals cfg env d) = false ->
  keys_eq (dict_keys d) (dict_keys (current_files (pass_locals cfg env d))) = true.
Proof.
  intros Hno. apply not_true_iff_false in Hno. rewrite pass_changes_detected in Hno.
  unfold keys_eq. apply andb_true_iff. split; apply forallb_forall; intros p Hp;
    apply list_elem_of_In in Hp; apply bool_decide_eq_true.
  - destruct (decide (p ∈ dict_keys (current_files (pass_locals cfg env d)))) as [|Hn];
      [assumption|].
    exfalso. apply Hno. right. exists p. apply elem_of_deleted_files.
    unfold scanned. rewrite scan_locals_current_files. cbn [current_files].
    rewrite pass_current_files in Hn.
    rewrite elem_of_dict_keys in Hp. rewrite elem_of_dict_keys in Hn.
    split; [exact Hp|].
    apply eq_None_not_Some. exact Hn.
  - rewrite pass_current_files in Hp. apply elem_of_dict_keys in Hp as [h Hh].
    apply snapshot_get_Some in Hh as [Hc Hh].
    apply elem_of_dict_keys. destruct (dict_get d p) as [v|] eqn:Hv; [eauto|].
    exfalso. apply Hno. left. exists p. split; [exact Hc|].
    apply changed_classify. exists h, NewFileAdded. split; [exact Hh|].
    unfold classify. rewrite Hv. reflexivity.
Qed.

Lemma saves_iff_changes (cfg : config) (env : environment) (d : pydict pyval) :
  saves d (pass_locals cfg env d) = changes_detected (pass_locals cfg env d).
Proof.
  unfold saves. destruct (changes_detected (pass_locals cfg env d)) eqn:Hc; [reflexivity|].
  rewrite no_change_keys_eq by exact Hc. reflexivity.
Qed.

(** Property X17.  What the guard of line 157 does: in every pass whose
    state file loads as a mapping, the save is attempted (the state file is
    opened for writing) exactly when the pass reported at least one added,
    modified or deleted path; a pass that detects no change does not invoke
    the save. *)
Theorem save_exactly_when_changed (cfg : config) (env : environment) (fs : store)
    (d : pydict pyval) :
  loads_mapping env fs d ->
  exists l st,
    run (check_folder cfg env) fs = (Ok l, st) /\
    (OpenWrite HASH_FILE ∈ trace st <-> exists c p, change_log c p ∈ trace st).
Proof.
  intros Hload. eexists _, _. split; [apply check_folder_pass; exact Hload|].
  cbn [trace]. rewrite open_write_hash_pass, pass_reports_change, saves_iff_changes.
  reflexivity.
Qed.

(* ===================================================================== *)
(** ** Digest failures (claim C7) *)
(* ===================================================================== *)

Lemma hash_error_scan_events (env : environment) (d : pydict pyval) (ps : list pystr)
    (p : pystr) :
  p ∈ ps -> digest_of env p = None ->
  Log ERROR (ErrorHashing p OSError) ∈ scan_events env d ps.
Proof.
  intros Hp Hh. unfold scan_events. rewrite list_elem_of_In, in_flat_map.
  exists p. rewrite <- !list_elem_of_In. split; [exact Hp|].
  unfold visit_events. rewrite Hh. left.
Qed.

(** Claim C7.  In every pass whose state file loads as a mapping, for every
    path that passes the exclusion filters: when reading it fails, the
    failure is logged and the path is absent from the new snapshot; when
    reading it succeeds, the new snapshot maps it to the digest of its
    content, whatever happens to the other paths. *)
Theorem C7_digest_failure_isolated (cfg : config) (env : environment) (fs : store)
    (d : pydict pyval) :
  loads_mapping env fs d ->
  exists l st,
    run (check_folder cfg env) fs = (Ok l, st) /\
    forall p, p ∈ candidates cfg env ->
      (read_bytes env p = None ->
       Log ERROR (ErrorHashing p OSError) ∈ trace st /\ p ∉ keys (current_files l)) /\
      (forall data, read_bytes env p = Some data ->
       dict_get (current_files l) p = Some (Sha256.hexdigest data)).
Proof.
  intros Hload. eexists _, _. split; [apply check_folder_pass; exact Hload|].
  cbn [trace]. intros p Hp. rewrite pass_current_files. split.
  - intros Hr. assert (Hh : digest_of env p = None) by (unfold digest_of; rewrite Hr; reflexivity).
    split.
    + unfold pass_events. rewrite !elem_of_app. right. left.
      apply hash_error_scan_events; assumption.
    + rewrite elem_of_keys, snapshot_get, Hh.
      destruct (bool_decide (p ∈ candidates cfg env)); intros [? ?]; discriminate.
  - intros data Hr. apply snapshot_get_Some. split; [exact Hp|].
    unfold digest_of. rewrite Hr. reflexivity.
Qed.

(* ===================================================================== *)
(** ** The exclusion filters (claim C2) *)
(* ===================================================================== *)

Lemma segments_nonempty (s : pystr) : segments s <> [].
Proof.
  destruct s as [|c s]; cbn; [discriminate|].
  destruct (c =? sep); [discriminate|]. destruct (segments s); discriminate.
Qed.

(** A fragment without separator starts a path exactly when it starts its
    first segment. *)
Lemma startswith_first_segment (s : pystr) :
  forall frag, sep ∉ frag ->
    startswith frag s = startswith frag (hd [] (segments s)).
Proof.
  induction s as [|c s IH]; intros frag Hf; [reflexivity|].
  cbn [segments]. destruct (N.eqb_spec c sep) as [->|Hc].
  - cbn [hd]. destruct frag as [|a frag]; [reflexivity|].
    cbn [startswith]. destruct (N.eqb_spec a sep) as [->|Ha]; [|reflexivity].
    exfalso. apply Hf. left.
  - destruct (segments s) as [|seg segs] eqn:Hs; [exfalso; eapply segments_nonempty; eauto|].
    cbn [hd]. destruct frag as [|a frag]; [reflexivity|].
    cbn [startswith]. f_equal.
    rewrite IH by (intros H; apply Hf; right; exact H). rewrite ?Hs. reflexivity.
Qed.

Lemma contains_segments (s : pystr) (frag : pystr) :
  sep ∉ frag ->
  contains frag s = true <-> exists seg, seg ∈ segments s /\ contains frag seg = true.
Proof.
  intros Hf. induction s as [|c s IH].
  - cbn [segments]. split.
    + intros H. exists []. split; [left|exact H].
    + intros (seg & Hseg & H). apply list_elem_of_singleton in Hseg as ->. exact H.
  - cbn [contains]. rewrite orb_true_iff, IH.
    rewrite (startswith_first_segment (c :: s) frag Hf).
    cbn [segments]. destruct (N.eqb_spec c sep) as [->|Hc].
    + cbn [hd]. split.
      * intros [H|(seg & Hseg & H)].
        -- exists []. split; [left|]. cbn [contains]. rewrite H. reflexivity.
        -- exists seg. split; [right; exact Hseg|exact H].
      * intros (seg & Hseg & H). apply elem_of_cons in Hseg as [->|Hseg].
        -- left. cbn [contains] in H. rewrite orb_false_r in H. exact H.
        -- right. eauto.
    + destruct (segments s) as [|seg0 segs] eqn:Hs;
        [exfalso; eapply segments_nonempty; eauto|].
      cbn [hd]. split.
      * intros [H|(seg & Hseg & H)].
        -- exists (c :: seg0). split; [left|]. cbn [contains]. rewrite H. reflexivity.
        -- apply elem_of_cons in Hseg as [->|Hseg].
           ++ exists (c :: seg0). split; [left|]. cbn [contains]. rewrite H.
              apply orb_true_r.
           ++ exists seg. split; [right; exact Hseg|exact H].
      * intros (seg & Hseg & H). apply elem_of_cons in Hseg as [->|Hseg].
        -- cbn [contains] in H. apply orb_true_iff in H as [H|H]; [left; exact H|].
           right. exists seg0. split; [left|exact H].
        -- right. exists seg. split; [right; exact Hseg|exact H].
Qed.

Lemma excluded_directory_segments (cfg : config) (root : pystr) :
  Forall (fun frag => sep ∉ frag) (EXCLUDE_DIRECTORIES cfg) ->
  excluded_directory cfg root = true <->
  exists seg frag, seg ∈ segments root /\ frag ∈ EXCLUDE_DIRECTORIES cfg /\
                   contains frag seg = true.
Proof.
  intros Hwf. unfold excluded_directory. rewrite existsb_exists.
  rewrite Forall_forall in Hwf. split.
  - intros (frag & Hin & Hc). apply list_elem_of_In in Hin.
    apply contains_segments in Hc as (seg & Hseg & Hc); [|apply Hwf; exact Hin].
    exists seg, frag. auto.
  - intros (seg & frag & Hseg & Hin & Hc). exists frag.
    split; [apply list_elem_of_In; exact Hin|].
    apply contains_segments; [apply Hwf; exact Hin|eauto].
Qed.

Lemma excluded_extension_spec (cfg : config) (file : pystr) :
  excluded_extension cfg file = true <->
  exists ext, ext ∈ EXCLUDE_EXTENSIONS cfg /\ endswith file ext = true.
Proof.
  unfold excluded_extension. rewrite existsb_exists.
  split; intros (ext & Hin & H); exists ext; (split; [apply list_elem_of_In; exact Hin|exact H]).
Qed.

Lemma excluded_by_policy_spec (cfg : config) (root file : pystr) :
  Forall (fun frag => sep ∉ frag) (EXCLUDE_DIRECTORIES cfg) ->
  excluded_by_policy cfg root file <->
  excluded_directory cfg root || excluded_extension cfg file = true.
Proof.
  intros Hwf. unfold excluded_by_policy.
  rewrite orb_true_iff, (excluded_directory_segments cfg root Hwf), excluded_extension_spec.
  reflexivity.
Qed.

Lemma elem_of_directory_candidates (cfg : config) (entry : pystr * list pystr) (p : pystr) :
  p ∈ directory_candidates cfg entry <->
  excluded_directory cfg (fst entry) = false /\
  exists file, file ∈ snd entry /\ excluded_extension cfg file = false /\
               p = path_join (fst entry) file.
Proof.
  unfold directory_candidates. destruct (excluded_directory cfg (fst entry)).
  - split; [intros H; apply elem_of_nil in H; contradiction|intros [? _]; discriminate].
  - rewrite list_elem_of_In, in_map_iff. split.
    + intros (file & <- & Hin). apply filter_In in Hin as [Hin Hx].
      apply negb_true_iff in Hx. split; [reflexivity|]. exists file.
      rewrite list_elem_of_In. auto.
    + intros (_ & file & Hin & Hx & ->). exists file. split; [reflexivity|].
      apply filter_In. rewrite <- list_elem_of_In, negb_true_iff. auto.
Qed.

Lemma elem_of_candidates (cfg : config) (env : environment) (p : pystr) :
  p ∈ candidates cfg env <->
  exists root files file,
    (root, files) ∈ os_walk env (FOLDER_TO_MONITOR cfg) /\ file ∈ files /\
    excluded_directory cfg root = false /\ excluded_extension cfg file = false /\
    p = path_join root file.
Proof.
  unfold candidates. rewrite list_elem_of_In, in_flat_map. split.
  - intros ([root files] & Hin & Hp). apply list_elem_of_In in Hin, Hp.
    apply elem_of_directory_candidates in Hp as (Hd & file & Hf & Hx & ->).
    exists root, files, file. auto.
  - intros (root & files & file & Hin & Hf & Hd & Hx & ->).
    exists (root, files). rewrite <- !list_elem_of_In. split; [exact Hin|].
    apply elem_of_directory_candidates. split; [exact Hd|]. exists file. auto.
Qed.

(** When the walk lists every path once, a path determines its entry. *)
Lemma listed_injective (entries : list (pystr * list pystr)) :
  NoDup (flat_map (fun entry => List.map (path_join (fst entry)) (snd entry)) entries) ->
  forall root files file root' files' file',
    (root, files) ∈ entries -> file ∈ files ->
    (root', files') ∈ entries -> file' ∈ files' ->
    path_join root file = path_join root' file' ->
    root = root' /\ file = file'.
Proof.
  induction entries as [|[r fl] entries IH]; intros Hnd root files file root' files' file'
    Hin Hf Hin' Hf' Heq.
  - apply elem_of_nil in Hin. contradiction.
  - cbn [flat_map fst snd] in Hnd. apply NoDup_app in Hnd as (Hhere & Hsep & Hrest).
    assert (Hmem : forall ro fi f, (ro, fi) ∈ entries -> f ∈ fi ->
              path_join ro f ∈ flat_map (fun entry => List.map (path_join (fst entry)) (snd entry)) entries).
    { intros ro fi f H1 H2. rewrite list_elem_of_In, in_flat_map. exists (ro, fi).
      rewrite <- !list_elem_of_In. split; [exact H1|]. cbn [fst snd].
      apply list_elem_of_In, in_map, list_elem_of_In. exact H2. }
    assert (Hmem0 : forall f, f ∈ fl -> path_join r f ∈ List.map (path_join r) fl).
    { intros f H. apply list_elem_of_In, in_map, list_elem_of_In. exact H. }
    apply elem_of_cons in Hin as [[= -> ->]|Hin]; apply elem_of_cons in Hin' as [[= -> ->]|Hin'].
    + split; [reflexivity|]. clear -Hhere Hf Hf' Heq.
      induction fl as [|f0 fl IHf]; [apply elem_of_nil in Hf; contradiction|].
      cbn [List.map] in Hhere. apply NoDup_cons in Hhere as [Hnot Hnd].
      apply elem_of_cons in Hf as [->|Hf]; apply elem_of_cons in Hf' as [->|Hf'].
      * reflexivity.
      * exfalso. apply Hnot. rewrite Heq. apply list_elem_of_In, in_map, list_elem_of_In. exact Hf'.
      * exfalso. apply Hnot. rewrite <- Heq. apply list_elem_of_In, in_map, list_elem_of_In. exact Hf.
      * apply IHf; assumption.
    + exfalso. apply (Hsep (path_join r file)); [apply Hmem0; exact Hf|].
      rewrite Heq. eapply Hmem; eauto.
    + exfalso. apply (Hsep (path_join r file')); [apply Hmem0; exact Hf'|].
      rewrite <- Heq. eapply Hmem; eauto.
    + eapply IH; eauto.
Qed.

(** Claim C2.  For every exclusion policy whose directory fragments hold
    no separator, in every pass whose state file loads as a mapping and
    whose walk lists each path once: the path of a listed file is a key of
    the new snapshot if and only if the file is readable and the policy
    does not exclude it, where the policy excludes a file when some
    directory segment of its root contains a fragment or its name ends
    with an excluded extension.  The content of the file plays no part. *)
Theorem C2_exclusion (cfg : config) (env : environment) (fs : store) (d : pydict pyval) :
  loads_mapping env fs d ->
  Forall (fun frag => sep ∉ frag) (EXCLUDE_DIRECTORIES cfg) ->
  NoDup (listed cfg env) ->
  exists l st,
    run (check_folder cfg env) fs = (Ok l, st) /\
    forall root files file,
      (root, files) ∈ os_walk env (FOLDER_TO_MONITOR cfg) -> file ∈ files ->
      (path_join root file ∈ keys (current_files l) <->
       ~ excluded_by_policy cfg root file /\ is_Some (read_bytes env (path_join root file))).
Proof.
  intros Hload Hwf Hnd. eexists _, _. split; [apply check_folder_pass; exact Hload|].
  intros root files file Hin Hf.
  rewrite (excluded_by_policy_spec cfg root file Hwf), not_true_iff_false, orb_false_iff.
  rewrite pass_current_files, elem_of_keys. split.
  - intros [h Hh]. apply snapshot_get_Some in Hh as [Hc Hh].
    apply elem_of_candidates in Hc as (root' & files' & file' & Hin' & Hf' & Hd & Hx & Heq).
    destruct (listed_injective _ Hnd root files file root' files' file') as [-> ->];
      try assumption.
    split; [auto|]. unfold digest_of in Hh.
    destruct (read_bytes env (path_join root' file')); [eauto|discriminate].
  - intros [[Hd Hx] [data Hr]]. exists (Sha256.hexdigest data).
    apply snapshot_get_Some. split.
    + apply elem_of_candidates. exists root, files, file. auto.
    + unfold digest_of. rewrite Hr. reflexivity.
Qed.

(* ===================================================================== *)
(** ** Backup, then write (claim C6) *)
(* ===================================================================== *)

Lemma backup_failure_logged (env : environment) (fs : store) (data : file_data) :
  hash_file fs = Some data ->
  backup_open_fails env = true \/ data = Undecodable \/ backup_write env <> WriteOk ->
  exists e, Log ERROR (ErrorCreatingBackup e) ∈ snd (backup_outcome env fs).
Proof.
  intros Hf Hfail. unfold backup_outcome. rewrite Hf.
  destruct (backup_open_fails env); [eexists; left|].
  destruct data as [s|]; [|eexists; left].
  destruct (backup_write env); [destruct Hfail as [?|[?|?]]; congruence|..];
    eexists; right; left.
Qed.

Lemma backup_outcome_hash_file (env : environment) (fs : store) :
  hash_file (fst (backup_outcome env fs)) = hash_file fs.
Proof.
  unfold backup_outcome, written. destruct fs as [[[s|]|] bf]; cbn;
    destruct (backup_open_fails env); try reflexivity.
  destruct (backup_write env); reflexivity.
Qed.

(** Claim C6.  Every call of [save_hashes] returns normally, and:
    the backup file is opened for writing before the state file is;
    when the state file holds text and the backup step meets no fault, the
    backup file holds afterwards what the state file held before the call,
    whether the write of the new state succeeds or fails;
    when the backup step fails, the failure is logged, the state file is
    still opened for writing, and a write without fault leaves the new
    snapshot in it. *)
Theorem C6_backup_before_write (env : environment) (new : pydict pystr) (fs : store) :
  exists st,
    run (save_hashes env new) fs = (Ok tt, st) /\
    (forall i j, trace st !! i = Some (OpenWrite BACKUP_FILE) ->
                 trace st !! j = Some (OpenWrite HASH_FILE) -> (i < j)%nat) /\
    (forall s, hash_file fs = Some (Text s) ->
               backup_open_fails env = false -> backup_write env = WriteOk ->
               backup_file (files st) = hash_file fs) /\
    (forall data, hash_file fs = Some data ->
       backup_open_fails env = true \/ data = Undecodable \/ backup_write env <> WriteOk ->
       (exists e, Log ERROR (ErrorCreatingBackup e) ∈ trace st) /\
       OpenWrite HASH_FILE ∈ trace st /\
       (hash_write env = WriteOk -> hash_file (files st) = Some (Text (Json.dumps new)))).
Proof.
  eexists. split; [unfold run; apply save_hashes_run|].
  cbn [files trace app].
  split; [|split].
  - unfold save_outcome, backup_outcome, written.
    destruct fs as [hf bf]. cbn [hash_file]. intros i j.
    destruct hf as [[s|]|]; destruct (backup_open_fails env);
      destruct (backup_write env); destruct (hash_write env); cbn;
      destruct i as [|[|[|[|i]]]]; cbn; try discriminate;
      destruct j as [|[|[|[|j]]]]; cbn; try discriminate; intros; lia.
  - unfold save_outcome, backup_outcome, written.
    intros s Hf Ho Hw. rewrite Hf, Ho, Hw. destruct fs as [hf bf]. cbn in Hf |- *.
    destruct (hash_write env); cbn; congruence.
  - intros data Hf Hfail.
    destruct (backup_failure_logged env fs data Hf Hfail) as [e He].
    unfold save_outcome. destruct (backup_outcome env fs) as [fs1 t1] eqn:Hb.
    cbn [fst snd] in *. split; [|split].
    + exists e. apply elem_of_app. left. exact He.
    + apply elem_of_app. right. left.
    + intros ->. reflexivity.
Qed.

(* ===================================================================== *)
(** ** Save, then load (claim C9) *)
(* ===================================================================== *)

Lemma hexchar_text (d : N) : d < 16 -> text_char (hexchar d) = true.
Proof.
  intros Hd. unfold text_char, hexchar, Json.is_high_surrogate.
  apply andb_true_iff. split.
  - apply N.ltb_lt. destruct (d <? 10); lia.
  - apply negb_true_iff, andb_false_iff. left. apply N.leb_gt. destruct (d <? 10); lia.
Qed.

Lemma hex_digits_text (k : nat) : forall n, wf_text (hex_digits k n).
Proof.
  unfold wf_text. induction k as [|k IH]; intros n; [reflexivity|].
  cbn [hex_digits]. rewrite forallb_app, IH. cbn [forallb].
  rewrite hexchar_text by (apply N.mod_lt; lia). reflexivity.
Qed.

Lemma wf_text_app (s t : pystr) : wf_text s -> wf_text t -> wf_text (s ++ t).
Proof. unfold wf_text. intros Hs Ht. rewrite forallb_app, Hs, Ht. reflexivity. Qed.

Lemma hexdigest_text (data : list byte) : wf_text (Sha256.hexdigest data).
Proof.
  unfold Sha256.hexdigest, Sha256.hex8. cbv zeta.
  repeat (apply wf_text_app; [apply hex_digits_text|]). apply hex_digits_text.
Qed.

Lemma load_outcome_text (env : environment) (fs : store) (s : pystr) (v : pyval) :
  hash_file fs = Some (Text s) -> load_open_fails env = false -> Json.loads s = Some v ->
  fst (run (load_hashes env) fs) = Ok v.
Proof.
  intros Hf Ho Hl. unfold run. rewrite load_hashes_run. cbn [files fst].
  unfold load_outcome. rewrite Hf, Ho, Hl. reflexivity.
Qed.

Lemma save_outcome_hash_file (env : environment) (new : pydict pystr) (fs : store) :
  hash_write env = WriteOk ->
  hash_file (fst (save_outcome env new fs)) = Some (Text (Json.dumps new)).
Proof.
  intros Hw. unfold save_outcome. destruct (backup_outcome env fs) as [fs1 t1].
  rewrite Hw. reflexivity.
Qed.

(** Claim C9.  For every well-formed snapshot [S] (distinct keys; keys and
    digests are text), saving [S] without a write fault and then loading
    returns [S]. *)
Theorem C9_load_after_save (env env' : environment) (fs : store) (S : pydict pystr) :
  wf_snapshot S ->
  hash_write env = WriteOk ->
  load_open_fails env' = false ->
  fst (run (load_hashes env') (files (snd (run (save_hashes env S) fs)))) = Ok (dict_value S).
Proof.
  intros Hwf Hw Ho. unfold run at 2. rewrite save_hashes_run. cbn [snd files].
  eapply load_outcome_text; [apply save_outcome_hash_file; exact Hw|exact Ho|].
  apply loads_dumps. exact Hwf.
Qed.

(* ===================================================================== *)
(** ** The conditional save (claim C10) *)
(* ===================================================================== *)

Lemma check_folder_unconditional_run (cfg : config) (env : environment) (d : pydict pyval)
    (fs : store) :
  loads_mapping env fs d ->
  exists t,
    run (check_folder_unconditional cfg env) fs =
    (Ok (pass_locals cfg env d),
     State (fst (save_outcome env (current_files (pass_locals cfg env d)) fs)) t).
Proof.
  intros Hload. apply loads_mapping_outcome in Hload.
  unfold run, check_folder_unconditional.
  unfold mbind at 1, M_bind at 1, bind at 1.
  rewrite load_hashes_run. cbn [files trace]. rewrite Hload.
  unfold mbind at 1, M_bind at 1, bind at 1.
  rewrite (walk_run cfg env d) by reflexivity.
  fold (candidates cfg env). fold (scanned cfg env d). cbn [files trace].
  unfold mbind at 1, M_bind at 1, bind at 1. cbn [py_keys]. unfold ret at 1.
  unfold mbind at 1, M_bind at 1, bind at 1.
  fold (deleted_files d (current_files (scanned cfg env d))).
  rewrite report_deleted_run. fold (pass_locals cfg env d). cbn [files trace].
  unfold mbind at 1, M_bind at 1, bind at 1. rewrite save_hashes_run.
  run_monad. eexists. reflexivity.
Qed.

Lemma dict_set_Forall {V} (P : pystr * V -> Prop) (d : pydict V) (k : pystr) (v : V) :
  Forall P d -> P (k, v) -> Forall P (dict_set d k v).
Proof.
  intros Hd Hkv. induction d as [|[k0 v0] d IH]; cbn [dict_set].
  - apply Forall_cons. split; [exact Hkv|apply Forall_nil; exact I].
  - apply Forall_cons in Hd as [H0 Hd].
    destruct (bool_decide (k0 = k)) eqn:Hk.
    + apply bool_decide_eq_true in Hk as ->. apply Forall_cons. split; assumption.
    + apply Forall_cons. split; [exact H0|apply IH; exact Hd].
Qed.

Lemma snapshot_of_text (env : environment) (ps : list pystr) :
  Forall wf_text ps ->
  forall cf, Forall (fun kv => wf_text (fst kv) /\ wf_text (snd kv)) cf ->
    Forall (fun kv => wf_text (fst kv) /\ wf_text (snd kv)) (snapshot_of env ps cf).
Proof.
  unfold snapshot_of. induction ps as [|p ps IH]; intros Hps cf Hcf; [exact Hcf|].
  apply Forall_cons in Hps as [Hp Hps]. cbn [fold_left]. apply IH; [exact Hps|].
  unfold digest_of. destruct (read_bytes env p) as [data|]; [|exact Hcf].
  apply dict_set_Forall; [exact Hcf|]. split; [exact Hp|apply hexdigest_text].
Qed.

Lemma candidates_listed (cfg : config) (env : environment) (p : pystr) :
  p ∈ candidates cfg env -> p ∈ listed cfg env.
Proof.
  intros Hp. apply elem_of_candidates in Hp as (root & files & file & Hin & Hf & _ & _ & ->).
  unfold listed. rewrite list_elem_of_In, in_flat_map. exists (root, files).
  rewrite <- !list_elem_of_In. split; [exact Hin|]. cbn [fst snd].
  apply list_elem_of_In, in_map, list_elem_of_In. exact Hf.
Qed.

Lemma pass_snapshot_wf (cfg : config) (env : environment) (d : pydict pyval) :
  Forall wf_text (listed cfg env) ->
  wf_snapshot (current_files (pass_locals cfg env d)).
Proof.
  intros Hl. rewrite pass_current_files. split.
  - apply snapshot_of_NoDup. apply NoDup_nil. exact I.
  - apply snapshot_of_text; [|apply Forall_nil; exact I].
    rewrite Forall_forall in Hl |- *. intros p Hp. apply Hl, candidates_listed. exact Hp.
Qed.

Lemma dict_get_dict_value (cur : pydict pystr) (k : pystr) :
  dict_get (List.map (fun kv => (fst kv, PyStr (snd kv))) cur) k = PyStr <$> dict_get cur k.
Proof.
  induction cur as [|[k0 v0] cur IH]; [reflexivity|].
  cbn [List.map dict_get fst snd]. destruct (bool_decide (k0 = k)); [reflexivity|exact IH].
Qed.

(** Without a detected change the loaded mapping is the new snapshot. *)
Lemma no_change_same_mapping (cfg : config) (env : environment) (d : pydict pyval) :
  changes_detected (pass_locals cfg env d) = false ->
  same_mapping (PyDict d) (dict_value (current_files (pass_locals cfg env d))).
Proof.
  intros Hno. apply not_true_iff_false in Hno. rewrite pass_changes_detected in Hno.
  eexists _, _. split; [reflexivity|]. split; [reflexivity|].
  intros k. rewrite dict_get_dict_value, pass_current_files.
  destruct (dict_get (snapshot_of env (candidates cfg env) []) k) as [h|] eqn:Hcur; cbn.
  - apply snapshot_get_Some in Hcur as [Hc Hh].
    destruct (dict_get d k) as [v|] eqn:Hv.
    + destruct (py_ne_str v h) eqn:Hne.
      * exfalso. apply Hno. left. exists k. split; [exact Hc|].
        apply changed_classify. exists h, Modified. split; [exact Hh|].
        unfold classify. rewrite Hv, Hne. reflexivity.
      * apply py_ne_str_false in Hne as ->. reflexivity.
    + exfalso. apply Hno. left. exists k. split; [exact Hc|].
      apply changed_classify. exists h, NewFileAdded. split; [exact Hh|].
      unfold classify. rewrite Hv. reflexivity.
  - destruct (dict_get d k) as [v|] eqn:Hv; [|reflexivity].
    exfalso. apply Hno. right. exists k. apply elem_of_deleted_files.
    unfold scanned. rewrite scan_locals_current_files. cbn [current_files].
    split; [eauto|exact Hcur].
Qed.

Lemma same_mapping_refl (a : pydict pyval) : same_mapping (PyDict a) (PyDict a).
Proof. exists a, a. auto. Qed.

Lemma loads_mapping_other_env (env env' : environment) (fs : store) (d : pydict pyval) :
  loads_mapping env fs d -> load_open_fails env' = false -> loads_mapping env' fs d.
Proof.
  rewrite !loads_mapping_outcome. unfold load_outcome. intros H Ho. rewrite Ho.
  destruct (hash_file fs) as [data|]; [|exact H].
  destruct (load_open_fails env); [discriminate|exact H].
Qed.

(** Claim C10.  In every pass whose state file loads as a mapping [d] and
    whose listed paths are text: when the pass skips the save, [d] is the
    same mapping as the new snapshot; and when the write of the state file
    meets no fault, a load after [check_folder] and a load after the pass
    that saves unconditionally return the same mapping. *)
Theorem C10_conditional_save_equivalent (cfg : config) (env env' : environment) (fs : store)
    (d : pydict pyval) :
  loads_mapping env fs d ->
  Forall wf_text (listed cfg env) ->
  hash_write env = WriteOk ->
  load_open_fails env' = false ->
  exists l st st',
    run (check_folder cfg env) fs = (Ok l, st) /\
    run (check_folder_unconditional cfg env) fs = (Ok l, st') /\
    (OpenWrite HASH_FILE ∉ trace st ->
     same_mapping (PyDict d) (dict_value (current_files l))) /\
    exists v v',
      fst (run (load_hashes env') (files st)) = Ok v /\
      fst (run (load_hashes env') (files st')) = Ok v' /\
      same_mapping v v'.
Proof.
  intros Hload Hl Hw Ho.
  destruct (check_folder_unconditional_run cfg env d fs Hload) as [t' Hrun'].
  eexists _, _, _. split; [apply check_folder_pass; exact Hload|].
  split; [exact Hrun'|]. cbn [trace files].
  pose proof (pass_snapshot_wf cfg env d Hl) as Hwf.
  assert (Hsaved : fst (run (load_hashes env')
            (fst (save_outcome env (current_files (pass_locals cfg env d)) fs))) =
          Ok (dict_value (current_files (pass_locals cfg env d)))).
  { eapply load_outcome_text; [apply save_outcome_hash_file; exact Hw|exact Ho|].
    apply loads_dumps. exact Hwf. }
  split.
  - intros Hskip. apply no_change_same_mapping.
    rewrite open_write_hash_pass, saves_iff_changes in Hskip.
    apply not_true_iff_false. exact Hskip.
  - unfold pass_save. rewrite saves_iff_changes.
    destruct (changes_detected (pass_locals cfg env d)) eqn:Hc.
    + eexists _, _. split; [exact Hsaved|]. split; [exact Hsaved|].
      apply same_mapping_refl.
    + eexists _, _. split; [|split; [exact Hsaved|]].
      * cbn [fst]. apply (loads_mapping_other_env env env' fs d Hload Ho).
      * apply no_change_same_mapping. exact Hc.
Qed.

(* ===================================================================== *)
(** ** Further facts, and the claims on the concrete world *)
(* ===================================================================== *)

(** The silent paths of a pass are those the loaded mapping already maps to
    the digest found. *)
Lemma unchanged_pass (cfg : config) (env : environment) (d : pydict pyval) (fs : store)
    (p : pystr) :
  let l := pass_locals cfg env d in
  p ∈ unchanged (scan_result l (pass_events cfg env d fs)) <->
  exists h, dict_get (current_files l) p = Some h /\ dict_get d p = Some (PyStr h).
Proof.
  cbv zeta. cbn [scan_result unchanged].
  rewrite elem_of_difference, elem_of_union, elem_of_keys.
  rewrite (reported_pass cfg env d fs NewFileAdded p), (reported_pass cfg env d fs Modified p).
  split.
  - intros [[h Hh] Hno]. exists h. split; [exact Hh|].
    destruct (dict_get d p) as [v|] eqn:Hv; [|exfalso; apply Hno; left; eauto].
    destruct (py_ne_str v h) eqn:Hne; [exfalso; apply Hno; right; eauto|].
    apply py_ne_str_false in Hne as ->. reflexivity.
  - intros (h & Hh & Hv). split; [eauto|].
    intros [[_ Hn]|(h' & v & Hh' & Hv' & Hne)]; [congruence|].
    assert (h' = h) as -> by congruence. assert (v = PyStr h) as -> by congruence.
    cbn in Hne. rewrite bool_decide_eq_true_2 in Hne by reflexivity. discriminate.
Qed.

Lemma elem_of_filter_keys (f : pystr -> bool) (new : pydict pystr) (p : pystr) :
  p ∈ (list_to_set (List.filter f (dict_keys new)) : gset pystr) <->
  f p = true /\ is_Some (dict_get new p).
Proof.
  rewrite elem_of_list_to_set, list_elem_of_In, filter_In, <- list_elem_of_In.
  rewrite elem_of_dict_keys. tauto.
Qed.

(** The classes [check_folder] reports are those of the diff of the
    specification on the loaded mapping and the new snapshot. *)
Lemma check_folder_refines_diff (cfg : config) (env : environment) (fs : store)
    (d : pydict pyval) :
  loads_mapping env fs d ->
  exists l st,
    run (check_folder cfg env) fs = (Ok l, st) /\
    scan_result l (trace st) = diff d (current_files l).
Proof.
  intros Hload. eexists _, _. split; [apply check_folder_pass; exact Hload|].
  cbn [trace]. set (l := pass_locals cfg env d).
  assert (HA : added (scan_result l (pass_events cfg env d fs)) = added (diff d (current_files l))).
  { apply set_eq. intros p. cbn [scan_result diff added].
    rewrite (reported_pass cfg env d fs NewFileAdded p), elem_of_filter_keys.
    rewrite dict_mem_get, negb_true_iff, bool_decide_eq_false, <- eq_None_not_Some.
    fold l. tauto. }
  assert (HM : modified (scan_result l (pass_events cfg env d fs)) =
               modified (diff d (current_files l))).
  { apply set_eq. intros p. cbn [scan_result diff modified].
    rewrite (reported_pass cfg env d fs Modified p), elem_of_filter_keys. fold l. split.
    - intros (h & v & Hh & Hv & Hne). rewrite Hh, Hv. eauto.
    - intros [Hne [h Hh]]. rewrite Hh in Hne.
      destruct (dict_get d p) as [v|]; [eauto|discriminate]. }
  assert (HD : deleted (scan_result l (pass_events cfg env d fs)) =
               deleted (diff d (current_files l))).
  { apply set_eq. intros p. cbn [scan_result diff deleted].
    rewrite (reported_pass cfg env d fs Deleted p), elem_of_difference, !elem_of_keys.
    rewrite <- eq_None_not_Some. fold l. tauto. }
  assert (HU : unchanged (scan_result l (pass_events cfg env d fs)) =
               unchanged (diff d (current_files l))).
  { apply set_eq. intros p. unfold l at 1.
    rewrite (unchanged_pass cfg env d fs p). cbv zeta. fold l.
    cbn [diff unchanged]. rewrite elem_of_filter_keys, andb_true_iff, negb_true_iff.
    rewrite dict_mem_get, bool_decide_eq_true. split.
    - intros (h & Hh & Hv). rewrite Hh, Hv. cbn.
      rewrite bool_decide_eq_true_2 by reflexivity. eauto.
    - intros [[[v Hv] Hne] [h Hh]]. rewrite Hh, Hv in Hne.
      apply py_ne_str_false in Hne as ->. eauto. }
  destruct (scan_result l (pass_events cfg env d fs)), (diff d (current_files l)).
  cbn in HA, HM, HD, HU. congruence.
Qed.

(** What [load_hashes] returns: the empty mapping without a state file, the
    parsed value of a state file that is JSON text, the empty mapping and
    a warning for text that is not JSON. *)
Lemma load_hashes_cases (env : environment) (fs : store) :
  (hash_file fs = None ->
   run (load_hashes env) fs = (Ok (PyDict []), State fs [])) /\
  (forall s v, hash_file fs = Some (Text s) -> load_open_fails env = false ->
     Json.loads s = Some v ->
     run (load_hashes env) fs = (Ok v, State fs [])) /\
  (forall s, hash_file fs = Some (Text s) -> load_open_fails env = false ->
     Json.loads s = None ->
     run (load_hashes env) fs =
     (Ok (PyDict []), State fs [Log WARNING ErrorReadingHashFile])).
Proof.
  unfold run. rewrite load_hashes_run. cbn [files trace app]. unfold load_outcome.
  repeat split.
  - intros ->. reflexivity.
  - intros s v -> -> ->. reflexivity.
  - intros s -> -> ->. reflexivity.
Qed.

(** A pass whose state file loads as a mapping returns normally, whatever
    faults the reads of the files, the writes of the two state files and
    the alerts meet. *)
Lemma check_folder_survives_faults (cfg : config) (env : environment) (fs : store)
    (d : pydict pyval) :
  loads_mapping env fs d ->
  exists l st, run (check_folder cfg env) fs = (Ok l, st).
Proof.
  intros Hload. eexists _, _. apply check_folder_pass. exact Hload.
Qed.

(** The restriction of the round trip to text is needed: a high surrogate
    followed by a low one is read back as one character. *)
Example loads_dumps_surrogates :
  Json.loads (Json.dumps [([0xd800; 0xdc00], [])]) = Some (PyDict [([0x10000], PyStr [])]).
Proof. vm_compute. reflexivity. Qed.

(** A save on a full disk: the backup is not written and the state file is
    left truncated. *)
Example save_on_full_disk :
  run (save_hashes full_disk_env []) scenario_store =
  (Ok tt,
   State (Store (Some (Text (take 3 (Json.dumps [])))) None)
     [OpenWrite BACKUP_FILE; Log ERROR (ErrorCreatingBackup OSError);
      OpenWrite HASH_FILE; Log ERROR (ErrorSavingHashes OSError)]).
Proof. vm_compute. reflexivity. Qed.

(** Claim C1 fails on the code: on the second pass over an unchanged folder
    the pass completes without opening the state file for writing, although
    the comment of line 156 says that the state file is always updated. *)
Lemma C1_unchanged_pass_skips_save :
  exists l st,
    run (check_folder default_config scenario_env) scenario_store = (Ok l, st) /\
    OpenWrite HASH_FILE ∉ trace st.
Proof.
  eexists _, _. split; [vm_compute; reflexivity|].
  cbn [trace]. intros H. no_such_event H.
Qed.

Lemma save_exactly_when_changed_witness :
  loads_mapping scenario_env scenario_store scenario_mapping /\
  exists l st,
    run (check_folder default_config scenario_env) scenario_store = (Ok l, st) /\
    (OpenWrite HASH_FILE ∈ trace st <-> exists c p, change_log c p ∈ trace st).
Proof.
  split; [vm_compute; reflexivity|].
  apply (save_exactly_when_changed default_config scenario_env scenario_store
           scenario_mapping).
  vm_compute. reflexivity.
Defined.

Lemma C2_exclusion_witness :
  loads_mapping scenario_env scenario_store scenario_mapping /\
  Forall (fun frag => sep ∉ frag) (EXCLUDE_DIRECTORIES default_config) /\
  NoDup (listed default_config scenario_env) /\
  exists l st,
    run (check_folder default_config scenario_env) scenario_store = (Ok l, st) /\
    forall root files file,
      (root, files) ∈ os_walk scenario_env (FOLDER_TO_MONITOR default_config) ->
      file ∈ files ->
      (path_join root file ∈ keys (current_files l) <->
       ~ excluded_by_policy default_config root file /\
       is_Some (read_bytes scenario_env (path_join root file))).
Proof.
  assert (H1 : loads_mapping scenario_env scenario_store scenario_mapping)
    by (vm_compute; reflexivity).
  assert (H2 : Forall (fun frag => sep ∉ frag) (EXCLUDE_DIRECTORIES default_config))
    by by_compute.
  assert (H3 : NoDup (listed default_config scenario_env)) by by_compute.
  split; [exact H1|]. split; [exact H2|]. split; [exact H3|].
  apply (C2_exclusion default_config scenario_env scenario_store scenario_mapping H1 H2 H3).
Defined.

(** Claim C3 fails on the code: a state file that holds the JSON text of a
    list, or bytes that do not decode, makes the pass raise, and the
    exception ends [monitor_files]. *)
Theorem C3_damaged_state_file_ends_monitor :
  fst (run (check_folder default_config scenario_env) list_store) = Raise AttributeError /\
  fst (run (monitor_files default_config [scenario_env; scenario_env]) list_store) =
    Raise AttributeError /\
  fst (run (monitor_files default_config [scenario_env; scenario_env]) garbled_store) =
    Raise UnicodeDecodeError.
Proof. vm_compute. repeat split. Qed.

(** Claim C4 fails on the code: a state file that is JSON text of the
    wrong shape is returned as parsed, without a warning: a list, or a
    mapping to a number. *)
Theorem C4_wrongly_shaped_state_file_returned :
  run (load_hashes scenario_env) list_store = (Ok (PyList []), State list_store []) /\
  run (load_hashes scenario_env) number_store =
    (Ok (PyDict [(str "a", PyInt 1)]), State number_store []) /\
  fst (run (load_hashes scenario_env) garbled_store) = Raise UnicodeDecodeError.
Proof. vm_compute. repeat split. Qed.


Lemma C7_digest_failure_isolated_witness :
  loads_mapping scenario_env first_run_store [] /\
  exists l st,
    run (check_folder default_config scenario_env) first_run_store = (Ok l, st) /\
    forall p, p ∈ candidates default_config scenario_env ->
      (read_bytes scenario_env p = None ->
       Log ERROR (ErrorHashing p OSError) ∈ trace st /\ p ∉ keys (current_files l)) /\
      (forall data, read_bytes scenario_env p = Some data ->
       dict_get (current_files l) p = Some (Sha256.hexdigest data)).
Proof.
  split; [vm_compute; reflexivity|].
  apply (C7_digest_failure_isolated default_config scenario_env first_run_store []).
  vm_compute. reflexivity.
Defined.


Lemma C9_load_after_save_witness :
  wf_snapshot scenario_snapshot /\
  hash_write scenario_env = WriteOk /\
  load_open_fails scenario_env = false /\
  fst (run (load_hashes scenario_env)
         (files (snd (run (save_hashes scenario_env scenario_snapshot) first_run_store)))) =
  Ok (dict_value scenario_snapshot).
Proof.
  assert (H : wf_snapshot scenario_snapshot) by (split; by_compute).
  split; [exact H|]. split; [reflexivity|]. split; [reflexivity|].
  apply (C9_load_after_save scenario_env scenario_env first_run_store scenario_snapshot H);
    reflexivity.
Defined.

Lemma C10_conditional_save_equivalent_witness :
  loads_mapping scenario_env scenario_store scenario_mapping /\
  Forall wf_text (listed default_config scenario_env) /\
  hash_write scenario_env = WriteOk /\
  load_open_fails scenario_env = false /\
  exists l st st',
    run (check_folder default_config scenario_env) scenario_store = (Ok l, st) /\
    run (check_folder_unconditional default_config scenario_env) scenario_store = (Ok l, st') /\
    (OpenWrite HASH_FILE ∉ trace st ->
     same_mapping (PyDict scenario_mapping) (dict_value (current_files l))) /\
    exists v v',
      fst (run (load_hashes scenario_env) (files st)) = Ok v /\
      fst (run (load_hashes scenario_env) (files st')) = Ok v' /\
      same_mapping v v'.
Proof.
  assert (H1 : loads_mapping scenario_env scenario_store scenario_mapping)
    by (vm_compute; reflexivity).
  assert (H2 : Forall wf_text (listed default_config scenario_env)) by by_compute.
  split; [exact H1|]. split; [exact H2|]. split; [reflexivity|]. split; [reflexivity|].
  apply (C10_conditional_save_equivalent default_config scenario_env scenario_env
           scenario_store scenario_mapping H1 H2); reflexivity.
Defined.

(* ===================================================================== *)
(** ** Further properties of the code *)
(* ===================================================================== *)

(* ===================================================================== *)
(** ** Further properties of the module *)
(* ===================================================================== *)

Lemma hexchar_lower (d : N) : d < 16 -> is_hex_lower (hexchar d) = true.
Proof.
  intros Hd. unfold is_hex_lower, hexchar. destruct (N.ltb_spec d 10).
  - apply orb_true_iff. left. apply andb_true_iff. split; apply N.leb_le; lia.
  - apply orb_true_iff. right. apply andb_true_iff. split; apply N.leb_le; lia.
Qed.

Lemma hex_digits_lower (k : nat) : forall n, forallb is_hex_lower (hex_digits k n) = true.
Proof.
  induction k as [|k IH]; intros n; [reflexivity|].
  cbn [hex_digits]. rewrite forallb_app, IH. cbn [forallb].
  rewrite hexchar_lower by (apply N.mod_lt; lia). reflexivity.
Qed.

Lemma hexdigest_lower (data : list byte) :
  forallb is_hex_lower (Sha256.hexdigest data) = true.
Proof.
  unfold Sha256.hexdigest, Sha256.hex8. cbv zeta.
  rewrite !forallb_app, !hex_digits_lower. reflexivity.
Qed.

(** Property X1.  [calculate_file_hash] never raises and never touches the
    store.  It returns [None] exactly for a path that cannot be read, after
    logging one error; for a readable path it returns the digest of the
    content, 64 lower-case hexadecimal digits, and logs nothing. *)
Theorem calculate_file_hash_result (env : environment) (p : pystr) (st : state) :
  exists r st',
    calculate_file_hash env p st = (Ok r, st') /\ files st' = files st /\
    match r with
    | Some h =>
      (exists data, read_bytes env p = Some data /\ h = Sha256.hexdigest data) /\
      length h = 64%nat /\ forallb is_hex_lower h = true /\ trace st' = trace st
    | None =>
      read_bytes env p = None /\
      trace st' = trace st ++ [Log ERROR (ErrorHashing p OSError)]
    end.
Proof.
  rewrite calculate_file_hash_run. unfold digest_of.
  destruct (read_bytes env p) as [data|]; eexists _, _; (split; [reflexivity|]).
  - split; [reflexivity|]. split; [eauto|]. split; [apply hexdigest_length|].
    split; [apply hexdigest_lower|reflexivity].
  - cbn [files trace]. auto.
Qed.




Lemma send_mail_save (env : environment) (new : pydict pystr) (fs : store)
    (p : pystr) (c : change_type) :
  SendMail p c ∉ snd (save_outcome env new fs).
Proof.
  unfold save_outcome, backup_outcome. intros H.
  destruct (hash_file fs) as [[s|]|]; destruct (backup_open_fails env);
    destruct (backup_write env); destruct (hash_write env); cbn in H;
    no_such_event H.
Qed.

(** The events of a pass, cut before the save. *)
Lemma pass_events_split (cfg : config) (env : environment) (d : pydict pyval) (fs : store) :
  pass_events cfg env d fs =
  (snd (load_outcome env fs) ++ scan_events env d (candidates cfg env) ++
   deleted_events env (deleted_files d (current_files (scanned cfg env d)))) ++
  (snd (pass_save cfg env d fs) ++
   [Log INFO (Monitoring (file_count (pass_locals cfg env d)));
    Print (Monitoring (file_count (pass_locals cfg env d)))]).
Proof. unfold pass_events. rewrite <- !app_assoc. reflexivity. Qed.




Lemma open_write_before_save (cfg : config) (env : environment) (d : pydict pyval)
    (fs : store) (f : file_name) :
  OpenWrite f ∉ (snd (load_outcome env fs) ++ scan_events env d (candidates cfg env) ++
                 deleted_events env (deleted_files d (current_files (scanned cfg env d)))).
Proof.
  rewrite !elem_of_app. intros [H|[H|H]].
  - eapply open_write_load; exact H.
  - eapply open_write_scan_events; exact H.
  - eapply open_write_deleted_events; exact H.
Qed.

(** Property X3.  In a pass every report of a change and every mail comes
    before the first write to a state file: the trace splits into a part
    without any opening of a state file and a part without any report or mail. *)
Theorem alerts_precede_save (cfg : config) (env : environment) (fs : store)
    (d : pydict pyval) :
  loads_mapping env fs d ->
  exists l st pre post,
    run (check_folder cfg env) fs = (Ok l, st) /\
    trace st = pre ++ post /\
    (forall f, OpenWrite f ∉ pre) /\
    (forall c p, (change_log c p ∉ post) /\ (SendMail p c ∉ post)).
Proof.
  intros Hload. eexists _, _, _, _. split; [apply check_folder_pass; exact Hload|].
  cbn [trace]. split; [apply pass_events_split|]. split.
  - intros f. apply open_write_before_save.
  - intros c p. rewrite !elem_of_app. split; intros [H|H].
    + unfold pass_save in H. destruct (saves d (pass_locals cfg env d)); [|no_such_event H].
      eapply change_log_save; exact H.
    + no_such_event H; destruct c; discriminate.
    + unfold pass_save in H. destruct (saves d (pass_locals cfg env d)); [|no_such_event H].
      eapply send_mail_save; exact H.
    + no_such_event H.
Qed.

(** Property X4.  A file the loaded mapping knows and that cannot be read in
    this pass is reported as deleted and is absent from the new snapshot: the
    pass does not tell an unreadable file from a removed one. *)
Theorem unreadable_known_file_reported_deleted (cfg : config) (env : environment)
    (fs : store) (d : pydict pyval) (p : pystr) :
  loads_mapping env fs d ->
  p ∈ keys d ->
  read_bytes env p = None ->
  exists l st,
    run (check_folder cfg env) fs = (Ok l, st) /\
    change_log Deleted p ∈ trace st /\ p ∉ keys (current_files l).
Proof.
  intros Hload Hp Hr. eexists _, _. split; [apply check_folder_pass; exact Hload|].
  cbn [trace]. apply elem_of_keys in Hp.
  assert (Hcur : dict_get (current_files (pass_locals cfg env d)) p = None).
  { rewrite pass_current_files, snapshot_get. unfold digest_of. rewrite Hr.
    destruct (bool_decide (p ∈ candidates cfg env)); reflexivity. }
  split.
  - apply elem_of_reported. apply (reported_pass cfg env d fs Deleted p). auto.
  - rewrite elem_of_keys, Hcur. intros [? ?]; discriminate.
Qed.

(** Property X5.  When a pass has detected no change, the key views of the
    loaded mapping and of the new snapshot are equal: the second test of line
    157 never makes the pass save. *)
Theorem second_test_never_decides (cfg : config) (env : environment) (fs : store)
    (d : pydict pyval) :
  loads_mapping env fs d ->
  exists l st,
    run (check_folder cfg env) fs = (Ok l, st) /\
    (changes_detected l = false ->
     keys_eq (dict_keys d) (dict_keys (current_files l)) = true).
Proof.
  intros Hload. eexists _, _. split; [apply check_folder_pass; exact Hload|].
  apply no_change_keys_eq.
Qed.

Lemma save_outcome_backup_file (env : environment) (new : pydict pystr) (fs : store)
    (s : pystr) :
  hash_file fs = Some (Text s) -> backup_open_fails env = false ->
  backup_write env = WriteOk ->
  backup_file (fst (save_outcome env new fs)) = Some (Text s).
Proof.
  intros Hf Ho Hw. unfold save_outcome, backup_outcome, written.
  rewrite Hf, Ho, Hw. destruct fs as [hf bf]. destruct (hash_write env); reflexivity.
Qed.

(** Property X6.  What a pass does to the two state files.  Without a detected
    change it leaves both as they were.  With a detected change and a backup
    step without fault, the backup file holds afterwards the text the state
    file held before the pass; and when the write meets no fault, the state
    file holds the dump of the new snapshot. *)
Theorem pass_store_effect (cfg : config) (env : environment) (fs : store)
    (d : pydict pyval) :
  loads_mapping env fs d ->
  exists l st,
    run (check_folder cfg env) fs = (Ok l, st) /\
    (changes_detected l = false -> files st = fs) /\
    (changes_detected l = true ->
     (forall s, hash_file fs = Some (Text s) -> backup_open_fails env = false ->
                backup_write env = WriteOk -> backup_file (files st) = Some (Text s)) /\
     (hash_write env = WriteOk ->
      hash_file (files st) = Some (Text (Json.dumps (current_files l))))).
Proof.
  intros Hload. eexists _, _. split; [apply check_folder_pass; exact Hload|].
  cbn [files]. unfold pass_save. rewrite saves_iff_changes. split.
  - intros ->. reflexivity.
  - intros ->. split.
    + intros s Hf Ho Hw. apply save_outcome_backup_file; assumption.
    + intros Hw. apply save_outcome_hash_file. exact Hw.
Qed.

Lemma startswith_app (p a b : pystr) :
  startswith p a = true -> startswith p (a ++ b) = true.
Proof.
  revert a. induction p as [|c p IH]; intros a H; [reflexivity|].
  destruct a as [|x a]; [discriminate|]. cbn [startswith app] in *.
  apply andb_true_iff in H as [Hc H]. rewrite Hc, IH by exact H. reflexivity.
Qed.

Lemma contains_app (p a b : pystr) :
  contains p a = true -> contains p (a ++ b) = true.
Proof.
  induction a as [|x a IH]; intros H.
  - cbn [contains] in H. rewrite orb_false_r in H.
    destruct p; [|discriminate]. destruct b; reflexivity.
  - cbn [contains app] in *. apply orb_true_iff in H as [H|H]; apply orb_true_iff.
    + left. apply (startswith_app p (x :: a) b). exact H.
    + right. apply IH. exact H.
Qed.

(** Property X7.  The directories below an excluded directory are excluded
    too: when the test of line 122 skips [root], it skips every
    [os.path.join(root, name)] for a relative [name], so the whole subtree
    stays out of the snapshot although the walk still enters it. *)
Theorem excluded_directory_subtree (cfg : config) (root name : pystr) :
  excluded_directory cfg root = true ->
  startswith [sep] name = false ->
  excluded_directory cfg (path_join root name) = true.
Proof.
  unfold excluded_directory. rewrite !existsb_exists. intros (frag & Hin & Hc) Hrel.
  exists frag. split; [exact Hin|]. unfold path_join. rewrite Hrel.
  destruct (bool_decide (root = []) || endswith root [sep]); apply contains_app; exact Hc.
Qed.

Lemma load_outcome_hash_file (env : environment) (fs fs' : store) :
  hash_file fs' = hash_file fs -> load_outcome env fs' = load_outcome env fs.
Proof. intros H. unfold load_outcome. rewrite H. reflexivity. Qed.

Lemma backup_outcome_events (env : environment) (fs fs' : store) :
  hash_file fs' = hash_file fs ->
  snd (backup_outcome env fs') = snd (backup_outcome env fs).
Proof.
  intros H. unfold backup_outcome. rewrite H.
  destruct (hash_file fs) as [[s|]|]; destruct (backup_open_fails env); reflexivity.
Qed.

Lemma save_outcome_events (env : environment) (new : pydict pystr) (fs fs' : store) :
  hash_file fs' = hash_file fs ->
  snd (save_outcome env new fs') = snd (save_outcome env new fs).
Proof.
  intros H. unfold save_outcome.
  pose proof (backup_outcome_events env fs fs' H) as Hb.
  destruct (backup_outcome env fs), (backup_outcome env fs'). cbn in Hb |- *.
  rewrite Hb. reflexivity.
Qed.

Lemma save_outcome_failed_open (env : environment) (new : pydict pystr) (fs : store) :
  hash_write env = WriteFailsAtOpen ->
  hash_file (fst (save_outcome env new fs)) = hash_file fs.
Proof.
  intros Hw. unfold save_outcome.
  pose proof (backup_outcome_hash_file env fs) as Hb.
  destruct (backup_outcome env fs) as [fs1 t1]. rewrite Hw. exact Hb.
Qed.

(** Property X8.  When the state file cannot be opened for writing, the pass
    leaves it as it was, and the next pass over the same folder finds the same
    changes and records the same events: the alerts are repeated until a save
    succeeds. *)
Theorem failed_save_repeats_alerts (cfg : config) (env : environment) (fs : store)
    (d : pydict pyval) :
  loads_mapping env fs d ->
  hash_write env = WriteFailsAtOpen ->
  exists l st st',
    run (check_folder cfg env) fs = (Ok l, st) /\
    hash_file (files st) = hash_file fs /\
    run (check_folder cfg env) (files st) = (Ok l, st') /\
    trace st' = trace st.
Proof.
  intros Hload Hw.
  assert (Hkeep : hash_file (fst (pass_save cfg env d fs)) = hash_file fs).
  { unfold pass_save. destruct (saves d (pass_locals cfg env d)); [|reflexivity].
    apply save_outcome_failed_open. exact Hw. }
  assert (Hload' : loads_mapping env (fst (pass_save cfg env d fs)) d).
  { apply loads_mapping_outcome. rewrite (load_outcome_hash_file env fs _ Hkeep).
    apply loads_mapping_outcome. exact Hload. }
  assert (Hsave : snd (pass_save cfg env d (fst (pass_save cfg env d fs))) =
                  snd (pass_save cfg env d fs)).
  { unfold pass_save at 1 3. destruct (saves d (pass_locals cfg env d)); [|reflexivity].
    apply save_outcome_events. exact Hkeep. }
  eexists _, _, _. split; [apply check_folder_pass; exact Hload|].
  cbn [files trace]. split; [exact Hkeep|].
  split; [apply check_folder_pass; exact Hload'|].
  cbn [trace]. unfold pass_events.
  rewrite (load_outcome_hash_file env fs _ Hkeep), Hsave. reflexivity.
Qed.

(** Property X9.  [backup_hashes] never raises and never changes the state
    file; without a state file it does nothing at all; and when it changes the
    backup file, the state file holds text and the backup file holds that text
    or, after a failed write, a beginning of it. *)
Theorem backup_hashes_effect (env : environment) (st : state) :
  exists st',
    backup_hashes env st = (Ok tt, st') /\
    hash_file (files st') = hash_file (files st) /\
    (hash_file (files st) = None -> st' = st) /\
    (backup_file (files st') <> backup_file (files st) ->
     exists s n, hash_file (files st) = Some (Text s) /\
                 backup_file (files st') = Some (Text (take n s))).
Proof.
  eexists. split; [apply backup_hashes_run|]. cbn [files trace].
  split; [apply backup_outcome_hash_file|].
  unfold backup_outcome, written. destruct st as [[hf bf] t]. cbn [files trace hash_file].
  split.
  - intros ->. cbn. rewrite app_nil_r. reflexivity.
  - destruct hf as [[s|]|]; cbn; destruct (backup_open_fails env); cbn;
      try (intros H; contradiction H; reflexivity).
    destruct (backup_write env) as [| |n]; cbn.
    + intros _. exists s, (length s). rewrite firstn_all. auto.
    + intros H. contradiction H. reflexivity.
    + intros _. exists s, n. auto.
Qed.

(** After a pass whose write meets no fault, the state file loads as the
    new snapshot. *)
Lemma pass_state_loads (cfg : config) (env env' : environment) (fs : store)
    (d : pydict pyval) :
  loads_mapping env fs d ->
  Forall wf_text (listed cfg env) ->
  hash_write env = WriteOk ->
  load_open_fails env' = false ->
  exists d',
    loads_mapping env' (fst (pass_save cfg env d fs)) d' /\
    forall k, dict_get d' k = PyStr <$> dict_get (current_files (pass_locals cfg env d)) k.
Proof.
  intros Hload Hl Hw Ho. unfold pass_save. rewrite saves_iff_changes.
  destruct (changes_detected (pass_locals cfg env d)) eqn:Hc; cbn [fst].
  - eexists. split.
    + unfold loads_mapping. eapply load_outcome_text;
        [apply save_outcome_hash_file; exact Hw|exact Ho|].
      apply loads_dumps. apply pass_snapshot_wf. exact Hl.
    + intros k. apply dict_get_dict_value.
  - exists d. split; [apply (loads_mapping_other_env env env' fs d Hload Ho)|].
    destruct (no_change_same_mapping cfg env d Hc) as (a & b & [= <-] & [= <-] & Hab).
    intros k. rewrite Hab. apply dict_get_dict_value.
Qed.

(** Property X10.  After every pass whose write of the state file meets no
    fault, whether the pass saved or not, loading the state file returns the
    new snapshot of the pass, as a mapping: the persisted state reflects the
    current state, and the entries of files that are gone are dropped. *)
Theorem state_file_reflects_snapshot (cfg : config) (env env' : environment) (fs : store)
    (d : pydict pyval) :
  loads_mapping env fs d ->
  Forall wf_text (listed cfg env) ->
  hash_write env = WriteOk ->
  load_open_fails env' = false ->
  exists l st v,
    run (check_folder cfg env) fs = (Ok l, st) /\
    fst (run (load_hashes env') (files st)) = Ok v /\
    same_mapping v (dict_value (current_files l)).
Proof.
  intros Hload Hl Hw Ho.
  destruct (pass_state_loads cfg env env' fs d Hload Hl Hw Ho) as (d' & Hload' & Hd').
  eexists _, _, _. split; [apply check_folder_pass; exact Hload|].
  cbn [files]. split; [exact Hload'|].
  eexists _, _. split; [reflexivity|]. split; [reflexivity|].
  intros k. rewrite Hd', dict_get_dict_value. reflexivity.
Qed.

(** A loaded mapping that agrees with the snapshot of the folder makes the
    pass detect nothing. *)
Lemma agreeing_mapping_no_change (cfg : config) (env : environment) (d' : pydict pyval) :
  (forall k, dict_get d' k = PyStr <$> dict_get (snapshot_of env (candidates cfg env) []) k) ->
  changes_detected (pass_locals cfg env d') = false.
Proof.
  intros Hd'. apply not_true_iff_false. rewrite pass_changes_detected.
  intros [(p & Hp & Hc)|[p Hp]].
  - apply changed_classify in Hc as (h & c & Hh & Hc).
    assert (Hcur : dict_get (snapshot_of env (candidates cfg env) []) p = Some h)
      by (apply snapshot_get_Some; auto).
    unfold classify in Hc. rewrite Hd', Hcur in Hc. cbn in Hc.
    rewrite bool_decide_eq_true_2 in Hc by reflexivity. discriminate.
  - apply elem_of_deleted_files in Hp as [[v Hv] Hcur].
    unfold scanned in Hcur. rewrite scan_locals_current_files in Hcur.
    cbn [current_files] in Hcur. rewrite Hd', Hcur in Hv. discriminate.
Qed.

(** Property X11.  A second pass over an unchanged folder, after a pass whose
    write met no fault, computes the same snapshot, detects no change, reports
    nothing and leaves the two state files as they are. *)
Theorem second_pass_is_silent (cfg : config) (env : environment) (fs : store)
    (d : pydict pyval) :
  loads_mapping env fs d ->
  Forall wf_text (listed cfg env) ->
  hash_write env = WriteOk ->
  load_open_fails env = false ->
  exists l st l' st',
    run (check_folder cfg env) fs = (Ok l, st) /\
    run (check_folder cfg env) (files st) = (Ok l', st') /\
    current_files l' = current_files l /\
    changes_detected l' = false /\
    (forall c p, change_log c p ∉ trace st') /\
    files st' = files st.
Proof.
  intros Hload Hl Hw Ho.
  destruct (pass_state_loads cfg env env fs d Hload Hl Hw Ho) as (d' & Hload' & Hd').
  rewrite pass_current_files in Hd'.
  pose proof (agreeing_mapping_no_change cfg env d' Hd') as Hno.
  eexists _, _, _, _. split; [apply check_folder_pass; exact Hload|].
  cbn [files]. split; [apply check_folder_pass; exact Hload'|].
  cbn [files trace]. split; [rewrite !pass_current_files; reflexivity|].
  split; [exact Hno|]. split.
  - intros c p H. apply not_true_iff_false in Hno. apply Hno.
    apply (pass_reports_change cfg env d' (fst (pass_save cfg env d fs))). eauto.
  - unfold pass_save at 1. rewrite saves_iff_changes, Hno. reflexivity.
Qed.

(** *** The count of the monitored files *)

Lemma scan_locals_file_count (env : environment) (d : pydict pyval) (ps : list pystr) :
  forall l,
    file_count (scan_locals env d ps l) =
    (file_count l + length (List.filter (fun p => bool_decide (is_Some (digest_of env p))) ps))%nat.
Proof.
  unfold scan_locals. induction ps as [|p ps IH]; intros l; [cbn; lia|].
  cbn [fold_left List.filter]. rewrite IH. unfold visit_locals.
  destruct (digest_of env p) as [h|].
  - rewrite bool_decide_eq_true_2 by eauto.
    destruct (classify d p h); cbn [length file_count record_file set_changes_detected]; lia.
  - rewrite bool_decide_eq_false_2 by (intros [? ?]; discriminate). reflexivity.
Qed.

Lemma snapshot_of_keys (env : environment) (ps : list pystr) (k : pystr) :
  forall cf, k ∈ dict_keys (snapshot_of env ps cf) -> k ∈ dict_keys cf \/ k ∈ ps.
Proof.
  unfold snapshot_of. induction ps as [|p ps IH]; intros cf Hk; [left; exact Hk|].
  cbn [fold_left] in Hk. apply IH in Hk as [Hk|Hk]; [|right; right; exact Hk].
  destruct (digest_of env p); [|left; exact Hk].
  apply dict_keys_set in Hk as [->|Hk]; [right; left|left; exact Hk].
Qed.

Lemma snapshot_of_length (env : environment) (ps : list pystr) :
  NoDup ps ->
  forall cf, (forall p, p ∈ ps -> p ∉ dict_keys cf) ->
    length (snapshot_of env ps cf) =
    (length cf + length (List.filter (fun p => bool_decide (is_Some (digest_of env p))) ps))%nat.
Proof.
  unfold snapshot_of. induction ps as [|p ps IH]; intros Hnd cf Hfresh; [cbn; lia|].
  apply NoDup_cons in Hnd as [Hp Hnd]. cbn [fold_left List.filter].
  destruct (digest_of env p) as [h|] eqn:Hh.
  - rewrite bool_decide_eq_true_2 by eauto.
    rewrite IH; [|exact Hnd|].
    + rewrite dict_set_fresh by (apply Hfresh; left). rewrite length_app. cbn [length]. lia.
    + intros q Hq Hin. apply dict_keys_set in Hin as [->|Hin]; [contradiction|].
      apply (Hfresh q); [right; exact Hq|exact Hin].
  - rewrite bool_decide_eq_false_2 by (intros [? ?]; discriminate).
    apply IH; [exact Hnd|]. intros q Hq. apply Hfresh. right. exact Hq.
Qed.

Lemma filter_sublist {A} (f : A -> bool) (l : list A) : List.filter f l `sublist_of` l.
Proof.
  induction l as [|x l IH]; [constructor|].
  cbn [List.filter]. destruct (f x); [apply sublist_skip|apply sublist_cons]; exact IH.
Qed.

Lemma map_sublist {A B} (f : A -> B) (l k : list A) :
  l `sublist_of` k -> List.map f l `sublist_of` List.map f k.
Proof.
  induction 1; cbn [List.map]; [constructor|apply sublist_skip|apply sublist_cons];
    assumption.
Qed.

Lemma candidates_sublist (cfg : config) (env : environment) :
  candidates cfg env `sublist_of` listed cfg env.
Proof.
  unfold candidates, listed.
  induction (os_walk env (FOLDER_TO_MONITOR cfg)) as [|entry entries IH]; [constructor|].
  cbn [flat_map]. apply sublist_app; [|exact IH].
  unfold directory_candidates. destruct (excluded_directory cfg (fst entry)).
  - apply sublist_nil_l.
  - apply map_sublist. apply filter_sublist.
Qed.

(** Property X12.  When the walk lists each path once, the count the pass logs
    and prints ("Monitoring n files") is the number of entries of the new
    snapshot. *)
Theorem file_count_is_snapshot_size (cfg : config) (env : environment) (fs : store)
    (d : pydict pyval) :
  loads_mapping env fs d ->
  NoDup (listed cfg env) ->
  exists l st,
    run (check_folder cfg env) fs = (Ok l, st) /\
    file_count l = length (current_files l) /\
    Print (Monitoring (length (current_files l))) ∈ trace st.
Proof.
  intros Hload Hnd. eexists _, _. split; [apply check_folder_pass; exact Hload|].
  assert (Hcount : file_count (pass_locals cfg env d) =
                   length (current_files (pass_locals cfg env d))).
  { rewrite pass_current_files.
    assert (Hs : file_count (scanned cfg env d) =
                 length (snapshot_of env (candidates cfg env) [])).
    { unfold scanned. rewrite scan_locals_file_count, snapshot_of_length.
      - reflexivity.
      - apply (sublist_NoDup _ _ Hnd (candidates_sublist cfg env)).
      - intros p _ H. apply elem_of_nil in H. exact H. }
    unfold pass_locals.
    destruct (deleted_files d (current_files (scanned cfg env d))); exact Hs. }
  split; [exact Hcount|]. cbn [trace]. rewrite <- Hcount.
  unfold pass_events. rewrite !elem_of_app. right. right. right. right. right. left.
Qed.

(** *** A loaded value that is not a mapping *)






(** *** The monitor and its own writes *)







(** *** Every path is reported once *)

Lemma reported_paths_app (t1 t2 : list event) :
  reported_paths (t1 ++ t2) = reported_paths t1 ++ reported_paths t2.
Proof. unfold reported_paths. rewrite omap_app, map_app. reflexivity. Qed.

Lemma reported_paths_email (env : environment) (q : pystr) (c : change_type) :
  reported_paths (email_events env q c) = [].
Proof.
  unfold email_events. destruct (email_configured env); cbn [negb]; [|reflexivity].
  destruct (smtp_fails env q c); reflexivity.
Qed.

Lemma reported_paths_change_events (env : environment) (q : pystr) (c : change_type) :
  reported_paths (change_events env q c) = [q].
Proof.
  unfold change_events. rewrite reported_paths_app, reported_paths_email.
  destruct c; reflexivity.
Qed.

Lemma reported_paths_scan_events (env : environment) (d : pydict pyval) (ps : list pystr) :
  reported_paths (scan_events env d ps) = List.filter (changed env d) ps.
Proof.
  unfold scan_events. induction ps as [|p ps IH]; [reflexivity|].
  cbn [flat_map List.filter]. rewrite reported_paths_app, IH.
  unfold visit_events, changed. destruct (digest_of env p) as [h|]; [|reflexivity].
  destruct (classify d p h) as [c|].
  - rewrite reported_paths_change_events, bool_decide_eq_true_2 by eauto. reflexivity.
  - rewrite bool_decide_eq_false_2 by (intros [? ?]; discriminate). reflexivity.
Qed.

Lemma reported_paths_deleted_events (env : environment) (dels : list pystr) :
  reported_paths (deleted_events env dels) = dels.
Proof.
  unfold deleted_events. induction dels as [|p dels IH]; [reflexivity|].
  cbn [flat_map]. rewrite reported_paths_app, reported_paths_change_events, IH. reflexivity.
Qed.

Lemma reported_paths_none (t : list event) :
  (forall c p, change_log c p ∉ t) -> reported_paths t = [].
Proof.
  unfold reported_paths. induction t as [|e t IH]; intros H; [reflexivity|].
  change (omap event_change (e :: t))
    with (match event_change e with
          | Some y => y :: omap event_change t
          | None => omap event_change t
          end).
  destruct (event_change e) as [[c p]|] eqn:He.
  - exfalso. apply (H c p).
    destruct e as [lv m| | |]; try discriminate.
    destruct lv, m; try discriminate; injection He as <- <-; left.
  - apply IH. intros c p Hin. apply (H c p). right. exact Hin.
Qed.

Lemma reported_paths_pass (cfg : config) (env : environment) (d : pydict pyval) (fs : store) :
  reported_paths (pass_events cfg env d fs) =
  List.filter (changed env d) (candidates cfg env) ++
  deleted_files d (current_files (scanned cfg env d)).
Proof.
  unfold pass_events. rewrite !reported_paths_app.
  rewrite reported_paths_scan_events, reported_paths_deleted_events.
  rewrite (reported_paths_none (snd (load_outcome env fs)))
    by (intros c p; apply change_log_load).
  rewrite (reported_paths_none (snd (pass_save cfg env d fs))).
  - cbn [reported_paths omap List.map event_change]. rewrite app_nil_r. reflexivity.
  - intros c p H. unfold pass_save in H.
    destruct (saves d (pass_locals cfg env d)); [|no_such_event H].
    eapply change_log_save; exact H.
Qed.

Lemma deleted_files_NoDup (d : pydict pyval) (cur : pydict pystr) :
  NoDup (deleted_files d cur).
Proof.
  unfold deleted_files.
  apply (sublist_NoDup _ _ (NoDup_remove_dups (dict_keys d)) (filter_sublist _ _)).
Qed.

(** Property X15.  When the walk lists each path once, a pass reports each
    path at most once, whatever the change: no file is announced twice in a
    pass. *)
Theorem each_path_reported_once (cfg : config) (env : environment) (fs : store)
    (d : pydict pyval) :
  loads_mapping env fs d ->
  NoDup (listed cfg env) ->
  exists l st,
    run (check_folder cfg env) fs = (Ok l, st) /\
    NoDup (reported_paths (trace st)).
Proof.
  intros Hload Hnd. eexists _, _. split; [apply check_folder_pass; exact Hload|].
  cbn [trace]. rewrite reported_paths_pass. apply NoDup_app. split; [|split].
  - apply (sublist_NoDup _ (candidates cfg env)); [|apply filter_sublist].
    apply (sublist_NoDup _ _ Hnd (candidates_sublist cfg env)).
  - intros p Hp Hdel. apply list_elem_of_In, filter_In in Hp as [Hp Hc].
    apply list_elem_of_In in Hp.
    apply changed_classify in Hc as (h & c & Hh & _).
    apply elem_of_deleted_files in Hdel as [_ Hcur].
    unfold scanned in Hcur. rewrite scan_locals_current_files in Hcur.
    cbn [current_files] in Hcur.
    assert (Hsome : dict_get (snapshot_of env (candidates cfg env) []) p = Some h)
      by (apply snapshot_get_Some; auto).
    congruence.
  - apply deleted_files_NoDup.
Qed.

(** Property X16.  A state file whose text is not JSON resets the baseline:
    the pass logs the warning of [load_hashes] and reports every file it
    digests as new and nothing else; when it digests at least one file, a
    write without fault replaces the damaged file by the dump of the new
    snapshot. *)
Theorem damaged_text_resets_baseline (cfg : config) (env : environment) (fs : store)
    (s : pystr) :
  hash_file fs = Some (Text s) ->
  load_open_fails env = false ->
  Json.loads s = None ->
  exists l st,
    run (check_folder cfg env) fs = (Ok l, st) /\
    Log WARNING ErrorReadingHashFile ∈ trace st /\
    reported NewFileAdded (trace st) = keys (current_files l) /\
    reported Modified (trace st) = ∅ /\ reported Deleted (trace st) = ∅ /\
    (current_files l <> [] -> hash_write env = WriteOk ->
     hash_file (files st) = Some (Text (Json.dumps (current_files l)))).
Proof.
  intros Hf Ho Hl.
  assert (Hout : load_outcome env fs = (Ok (PyDict []), [Log WARNING ErrorReadingHashFile])).
  { unfold load_outcome. rewrite Hf, Ho, Hl. reflexivity. }
  assert (Hload : loads_mapping env fs []).
  { apply loads_mapping_outcome. rewrite Hout. reflexivity. }
  eexists _, _. split; [apply check_folder_pass; exact Hload|].
  cbn [trace files]. split; [|split; [|split; [|split]]].
  - unfold pass_events. rewrite Hout. left.
  - apply set_eq. intros p.
    rewrite (reported_pass cfg env [] fs NewFileAdded p), elem_of_keys. cbn [dict_get]. tauto.
  - apply set_eq. intros p. rewrite (reported_pass cfg env [] fs Modified p). cbn [dict_get].
    split; [intros (h & v & _ & Hv & _); discriminate|intros H; apply elem_of_empty in H; contradiction].
  - apply set_eq. intros p. rewrite (reported_pass cfg env [] fs Deleted p). cbn [dict_get].
    split; [intros [[v Hv] _]; discriminate|intros H; apply elem_of_empty in H; contradiction].
  - intros Hne Hw. unfold pass_save. unfold saves.
    replace (keys_eq (dict_keys []) (dict_keys (current_files (pass_locals cfg env [])))) with false.
    + rewrite orb_true_r. apply save_outcome_hash_file. exact Hw.
    + symmetry. destruct (current_files (pass_locals cfg env [])) as [|[k v] cur];
        [contradiction|]. unfold keys_eq. cbn [dict_keys List.map fst forallb].
      apply andb_false_iff. right. apply andb_false_iff. left.
      apply bool_decide_eq_false_2. apply not_elem_of_nil.
Qed.

(* ===================================================================== *)
(** ** The further properties, on the concrete world *)
(* ===================================================================== *)


Lemma alerts_precede_save_witness :
  loads_mapping mail_env stale_store stale_mapping /\
  exists l st pre post,
    run (check_folder default_config mail_env) stale_store = (Ok l, st) /\
    trace st = pre ++ post /\
    (forall f, OpenWrite f ∉ pre) /\
    (forall c p, (change_log c p ∉ post) /\ (SendMail p c ∉ post)).
Proof.
  split; [vm_compute; reflexivity|].
  apply (alerts_precede_save default_config mail_env stale_store stale_mapping).
  vm_compute. reflexivity.
Defined.

Lemma unreadable_known_file_reported_deleted_witness :
  loads_mapping scenario_env stale_store stale_mapping /\
  str "test_folder/b.txt" ∈ keys stale_mapping /\
  read_bytes scenario_env (str "test_folder/b.txt") = None /\
  exists l st,
    run (check_folder default_config scenario_env) stale_store = (Ok l, st) /\
    change_log Deleted (str "test_folder/b.txt") ∈ trace st /\
    str "test_folder/b.txt" ∉ keys (current_files l).
Proof.
  assert (H1 : loads_mapping scenario_env stale_store stale_mapping)
    by (vm_compute; reflexivity).
  assert (H2 : str "test_folder/b.txt" ∈ keys stale_mapping) by by_compute.
  split; [exact H1|]. split; [exact H2|]. split; [reflexivity|].
  apply (unreadable_known_file_reported_deleted default_config scenario_env stale_store
           stale_mapping (str "test_folder/b.txt") H1 H2).
  reflexivity.
Defined.

Lemma second_test_never_decides_witness :
  loads_mapping scenario_env scenario_store scenario_mapping /\
  exists l st,
    run (check_folder default_config scenario_env) scenario_store = (Ok l, st) /\
    (changes_detected l = false ->
     keys_eq (dict_keys scenario_mapping) (dict_keys (current_files l)) = true).
Proof.
  split; [vm_compute; reflexivity|].
  apply (second_test_never_decides default_config scenario_env scenario_store
           scenario_mapping).
  vm_compute. reflexivity.
Defined.

Lemma pass_store_effect_witness :
  loads_mapping scenario_env stale_store stale_mapping /\
  exists l st,
    run (check_folder default_config scenario_env) stale_store = (Ok l, st) /\
    (changes_detected l = false -> files st = stale_store) /\
    (changes_detected l = true ->
     (forall s, hash_file stale_store = Some (Text s) ->
                backup_open_fails scenario_env = false ->
                backup_write scenario_env = WriteOk ->
                backup_file (files st) = Some (Text s)) /\
     (hash_write scenario_env = WriteOk ->
      hash_file (files st) = Some (Text (Json.dumps (current_files l))))).
Proof.
  split; [vm_compute; reflexivity|].
  apply (pass_store_effect default_config scenario_env stale_store stale_mapping).
  vm_compute. reflexivity.
Defined.

Lemma excluded_directory_subtree_witness :
  excluded_directory default_config (str "test_folder/.git") = true /\
  startswith [sep] (str "objects") = false /\
  excluded_directory default_config
    (path_join (str "test_folder/.git") (str "objects")) = true.
Proof.
  split; [reflexivity|]. split; [reflexivity|].
  apply (excluded_directory_subtree default_config (str "test_folder/.git") (str "objects"));
    reflexivity.
Defined.

Lemma failed_save_repeats_alerts_witness :
  loads_mapping read_only_env stale_store stale_mapping /\
  hash_write read_only_env = WriteFailsAtOpen /\
  exists l st st',
    run (check_folder default_config read_only_env) stale_store = (Ok l, st) /\
    hash_file (files st) = hash_file stale_store /\
    run (check_folder default_config read_only_env) (files st) = (Ok l, st') /\
    trace st' = trace st.
Proof.
  split; [vm_compute; reflexivity|]. split; [reflexivity|].
  apply (failed_save_repeats_alerts default_config read_only_env stale_store stale_mapping).
  - vm_compute. reflexivity.
  - reflexivity.
Defined.

Lemma state_file_reflects_snapshot_witness :
  loads_mapping scenario_env stale_store stale_mapping /\
  Forall wf_text (listed default_config scenario_env) /\
  hash_write scenario_env = WriteOk /\
  load_open_fails scenario_env = false /\
  exists l st v,
    run (check_folder default_config scenario_env) stale_store = (Ok l, st) /\
    fst (run (load_hashes scenario_env) (files st)) = Ok v /\
    same_mapping v (dict_value (current_files l)).
Proof.
  assert (H1 : loads_mapping scenario_env stale_store stale_mapping)
    by (vm_compute; reflexivity).
  assert (H2 : Forall wf_text (listed default_config scenario_env)) by by_compute.
  split; [exact H1|]. split; [exact H2|]. split; [reflexivity|]. split; [reflexivity|].
  apply (state_file_reflects_snapshot default_config scenario_env scenario_env stale_store
           stale_mapping H1 H2); reflexivity.
Defined.

Lemma second_pass_is_silent_witness :
  loads_mapping scenario_env first_run_store [] /\
  Forall wf_text (listed default_config scenario_env) /\
  hash_write scenario_env = WriteOk /\
  load_open_fails scenario_env = false /\
  exists l st l' st',
    run (check_folder default_config scenario_env) first_run_store = (Ok l, st) /\
    run (check_folder default_config scenario_env) (files st) = (Ok l', st') /\
    current_files l' = current_files l /\
    changes_detected l' = false /\
    (forall c p, change_log c p ∉ trace st') /\
    files st' = files st.
Proof.
  assert (H1 : loads_mapping scenario_env first_run_store []) by (vm_compute; reflexivity).
  assert (H2 : Forall wf_text (listed default_config scenario_env)) by by_compute.
  split; [exact H1|]. split; [exact H2|]. split; [reflexivity|]. split; [reflexivity|].
  apply (second_pass_is_silent default_config scenario_env first_run_store [] H1 H2);
    reflexivity.
Defined.

Lemma file_count_is_snapshot_size_witness :
  loads_mapping scenario_env scenario_store scenario_mapping /\
  NoDup (listed default_config scenario_env) /\
  exists l st,
    run (check_folder default_config scenario_env) scenario_store = (Ok l, st) /\
    file_count l = length (current_files l) /\
    Print (Monitoring (length (current_files l))) ∈ trace st.
Proof.
  assert (H1 : loads_mapping scenario_env scenario_store scenario_mapping)
    by (vm_compute; reflexivity).
  assert (H2 : NoDup (listed default_config scenario_env)) by by_compute.
  split; [exact H1|]. split; [exact H2|].
  apply (file_count_is_snapshot_size default_config scenario_env scenario_store
           scenario_mapping H1 H2).
Defined.


Lemma each_path_reported_once_witness :
  loads_mapping scenario_env stale_store stale_mapping /\
  NoDup (listed default_config scenario_env) /\
  exists l st,
    run (check_folder default_config scenario_env) stale_store = (Ok l, st) /\
    NoDup (reported_paths (trace st)).
Proof.
  assert (H1 : loads_mapping scenario_env stale_store stale_mapping)
    by (vm_compute; reflexivity).
  assert (H2 : NoDup (listed default_config scenario_env)) by by_compute.
  split; [exact H1|]. split; [exact H2|].
  apply (each_path_reported_once default_config scenario_env stale_store stale_mapping
           H1 H2).
Defined.

Lemma damaged_text_resets_baseline_witness :
  hash_file truncated_store = Some (Text (take 20 (Json.dumps scenario_snapshot))) /\
  load_open_fails scenario_env = false /\
  Json.loads (take 20 (Json.dumps scenario_snapshot)) = None /\
  exists l st,
    run (check_folder default_config scenario_env) truncated_store = (Ok l, st) /\
    Log WARNING ErrorReadingHashFile ∈ trace st /\
    reported NewFileAdded (trace st) = keys (current_files l) /\
    reported Modified (trace st) = ∅ /\ reported Deleted (trace st) = ∅ /\
    (current_files l <> [] -> hash_write scenario_env = WriteOk ->
     hash_file (files st) = Some (Text (Json.dumps (current_files l)))).
Proof.
  split; [reflexivity|]. split; [reflexivity|]. split; [vm_compute; reflexivity|].
  apply (damaged_text_resets_baseline default_config scenario_env truncated_store
           (take 20 (Json.dumps scenario_snapshot))).
  - reflexivity.
  - reflexivity.
  - vm_compute. reflexivity.
Defined.
